(** * Validation and eligibility engine: a shallow embedding

  The development follows the three modules of the engine:
  - [lib/validator.ts]  (document validator, MRZ check, similarity),
  - [lib/eligibilityEngine.ts] (policy table and eligibility rules),
  - [lib/documentVerifier.ts]  (confidence aggregation, recommendations).

  Modelling conventions.
  - A JavaScript string is a [string]; each [ascii] stands for one code
    unit below 256, so [length] is [.length] and [String.eqb] is [===].
    Case mapping and trimming are JavaScript's on these code units.
  - A JavaScript number that is always an integer is a [Z].  The scores
    that are rounded ([calculateOverallConfidence], the percentage of the
    pass-rate message) are computed in binary64, on the kernel's floats.
    The quotients that are only compared with a threshold are exact
    rationals ([Q]); a number that may be [NaN] is an [option].
  - [new Date()] is the parameter [now] (milliseconds since the epoch) and
    the date library (date-fns, [Date.prototype.setMonth]) is the record
    [DateLib]. *)

From Stdlib Require Import Bool Arith ZArith QArith Qround Lia List.
From Stdlib Require Import Ascii String DecimalString.
From Stdlib Require Import Permutation.
From Stdlib Require PrimFloat FloatOps SpecFloat Uint63.
Import ListNotations.

Open Scope string_scope.
Open Scope list_scope.

(** ** JavaScript string primitives *)

Module JsString.

Definition chars (s : string) : list ascii := list_ascii_of_string s.

Definition code (c : ascii) : nat := nat_of_ascii c.

Definition is_upper (c : ascii) : bool := (65 <=? code c)%nat && (code c <=? 90)%nat.
Definition is_lower (c : ascii) : bool := (97 <=? code c)%nat && (code c <=? 122)%nat.
Definition is_digit (c : ascii) : bool := (48 <=? code c)%nat && (code c <=? 57)%nat.

(** The cased letters above the ASCII range: U+00C0 to U+00DE without the
    multiplication sign U+00D7, and U+00E0 to U+00FE without the division
    sign U+00F7. *)
Definition is_upper_latin (c : ascii) : bool :=
  (192 <=? code c)%nat && (code c <=? 222)%nat && negb (code c =? 215)%nat.
Definition is_lower_latin (c : ascii) : bool :=
  (224 <=? code c)%nat && (code c <=? 254)%nat && negb (code c =? 247)%nat.

Definition lower_char (c : ascii) : ascii :=
  if is_upper c || is_upper_latin c then ascii_of_nat (code c + 32) else c.
Definition upper_char (c : ascii) : ascii :=
  if is_lower c || is_lower_latin c then ascii_of_nat (code c - 32) else c.

Fixpoint map_chars (f : ascii -> ascii) (s : string) : string :=
  match s with
  | EmptyString => EmptyString
  | String c r => String (f c) (map_chars f r)
  end.

(** [s.toLowerCase()]: the lower-case form of a code unit below 256 is
    again below 256. *)
Definition toLowerCase : string -> string := map_chars lower_char.

(** The upper-case form of one code unit.  U+00DF becomes the two letters
    ["SS"].  The upper-case forms of U+00FF and of U+00B5 are U+0178 and
    U+039C, which are not below 256: they are written here as the code
    units 255 and 181 themselves, which the upper-case form of no other
    code unit contains, so that two upper-cased strings are equal here
    exactly when they are equal in JavaScript. *)
Definition upper_units (c : ascii) : string :=
  if (code c =? 223)%nat then "SS" else String (upper_char c) EmptyString.

(** [s.toUpperCase()] *)
Fixpoint toUpperCase (s : string) : string :=
  match s with
  | EmptyString => EmptyString
  | String c r => upper_units c ++ toUpperCase r
  end.

(** The string with its ASCII letters upper-cased, every other code unit
    kept. *)
Definition asciiUpperCase : string -> string :=
  map_chars (fun c => if is_lower c then ascii_of_nat (code c - 32) else c).

(** White space and line terminators in the 8-bit range. *)
Definition is_space (c : ascii) : bool :=
  let n := code c in
  ((9 <=? n)%nat && (n <=? 13)%nat) || (n =? 32)%nat || (n =? 160)%nat.

Fixpoint trimStart (s : string) : string :=
  match s with
  | EmptyString => EmptyString
  | String c r => if is_space c then trimStart r else s
  end.

Fixpoint trimEnd (s : string) : string :=
  match s with
  | EmptyString => EmptyString
  | String c r =>
      match trimEnd r with
      | EmptyString => if is_space c then EmptyString else String c EmptyString
      | r' => String c r'
      end
  end.

Definition trim (s : string) : string := trimEnd (trimStart s).

(** [hay.includes(needle)] *)
Fixpoint includes (hay needle : string) : bool :=
  prefix needle hay ||
  match hay with
  | EmptyString => false
  | String _ r => includes r needle
  end.

(** [xs.join(sep)] *)
Fixpoint join (sep : string) (xs : list string) : string :=
  match xs with
  | [] => ""
  | [x] => x
  | x :: r => x ++ sep ++ join sep r
  end.

(** [xs.includes(x)] on an array of strings *)
Definition mem (x : string) (xs : list string) : bool :=
  existsb (String.eqb x) xs.

(** [`${n}`] for an integer *)
Definition of_Z (n : Z) : string := NilZero.string_of_int (Z.to_int n).

(** Truthiness of a possibly-missing string: [undefined] and [""] are
    falsy. *)
Definition truthy (o : option string) : bool :=
  match o with
  | Some s => negb (s =? "")
  | None => false
  end.

(** [a || d] on a possibly-missing string. *)
Definition or_else (o : option string) (d : string) : string :=
  match o with
  | Some s => if s =? "" then d else s
  | None => d
  end.

End JsString.

(** ** Numbers in binary64

    The arithmetic of JavaScript numbers, on the kernel's floats. *)

Module Binary64.

(** A non-negative integer below [2^53] as a number. *)
Definition of_Z (z : Z) : PrimFloat.float := PrimFloat.of_uint63 (Uint63.of_Z z).
Definition of_nat (n : nat) : PrimFloat.float := of_Z (Z.of_nat n).

(** The literals [0.6] and [0.4]: the correctly rounded quotients are the
    numbers nearest to six tenths and to four tenths. *)
Definition six_tenths : PrimFloat.float := PrimFloat.div (of_Z 6) (of_Z 10).
Definition four_tenths : PrimFloat.float := PrimFloat.div (of_Z 4) (of_Z 10).

(** The exact value of a finite number. *)
Definition value (x : PrimFloat.float) : option Q :=
  match FloatOps.Prim2SF x with
  | SpecFloat.S754_zero _ => Some 0%Q
  | SpecFloat.S754_finite s m e =>
      let magnitude := (inject_Z (Z.pos m) * Qpower (2 # 1) e)%Q in
      Some (if s then (- magnitude)%Q else magnitude)
  | _ => None
  end.

(** [Math.round] of a finite number: the nearest integer, a half going up.
    The numbers rounded by the engine are finite. *)
Definition round (x : PrimFloat.float) : Z :=
  match value x with
  | Some q => Qfloor (q + (1 # 2))
  | None => 0%Z
  end.

End Binary64.

(** ** Exceptions and [try]/[catch] *)

Inductive Exc (A : Type) : Type :=
| Ok (a : A)
| Throw (e : string).
Arguments Ok {A} a.
Arguments Throw {A} e.

Definition try_catch {A : Type} (body : Exc A) (handler : string -> A) : A :=
match body with
| Ok a => a
| Throw e => handler e
end.

(** ** Similarity utility ([validator.ts], lines 247-284) *)

Module Similarity.

(** The inner loop over [j]: [prev] is the part of row [i-1] from column
    [j-1] on, [left] is [matrix[i][j-1]]. *)
Fixpoint fill_row (c2 : ascii) (s1 : list ascii) (prev : list nat) (left : nat)
  : list nat :=
  match s1, prev with
  | c1 :: s1', diag :: prev' =>
      match prev' with
      | up :: _ =>
          let v := if Ascii.eqb c2 c1 then diag
                   else Nat.min (diag + 1) (Nat.min (left + 1) (up + 1)) in
          v :: fill_row c2 s1' prev' v
      | [] => []
      end
  | _, _ => []
  end.

(** The outer loop over [i]: [prev] is row [i]; the rows of [s2] still to
    come are built on top of it and the last one is returned. *)
Fixpoint fill_rows (s1 s2 : list ascii) (i : nat) (prev : list nat) : list nat :=
  match s2 with
  | [] => prev
  | c2 :: s2' => fill_rows s1 s2' (S i) (S i :: fill_row c2 s1 prev (S i))
  end.

Definition levenshtein_chars (s1 s2 : list ascii) : nat :=
  let row0 := seq 0 (S (List.length s1)) in
  nth (List.length s1) (fill_rows s1 s2 0 row0) 0%nat.

Definition levenshteinDistance (str1 str2 : string) : nat :=
  levenshtein_chars (JsString.chars str1) (JsString.chars str2).

Definition calculateSimilarity (str1 str2 : string) : Q :=
  let longer := if (String.length str2 <? String.length str1)%nat then str1 else str2 in
  let shorter := if (String.length str2 <? String.length str1)%nat then str2 else str1 in
  if (String.length longer =? 0)%nat then 1%Q
  else
    let editDistance := levenshteinDistance longer shorter in
    (Z.of_nat (String.length longer) - Z.of_nat editDistance)
      # Pos.of_nat (String.length longer).

(** The edit-distance recurrence the matrix tabulates, on the reversed
    prefixes: equal heads cost nothing, otherwise one more than the best of
    substitution, insertion and deletion. *)
Fixpoint ed (a : list ascii) : list ascii -> nat :=
  fix ed_a (b : list ascii) : nat :=
    match a, b with
    | [], _ => List.length b
    | _, [] => List.length a
    | x :: a', y :: b' =>
        if Ascii.eqb y x then ed a' b'
        else Nat.min (ed a' b' + 1) (Nat.min (ed a' b + 1) (ed_a b' + 1))
    end.

(** Row of the matrix for the reversed prefix [rb] of [str2]: the cells
    for every prefix of [s1] that extends the reversed prefix [ra]. *)
Fixpoint row_of (ra s1 rb : list ascii) : list nat :=
  ed ra rb ::
  match s1 with
  | [] => []
  | c :: s1' => row_of (c :: ra) s1' rb
  end.

End Similarity.

(** ** Data model ([ExtractedField], [ExtractedFields] of [documentVerifier.ts];
    [ValidationCheck] of [validator.ts]) *)

Record ExtractedField : Type := mkField {
  value : string;
  confidence : Z
}.

(** The own properties of the [ExtractedFields] object in enumeration order;
    a property may hold [undefined] ([None]).  The keys of an object are
    distinct; a lookup reads the first entry under the key. *)
Definition ExtractedFields : Type := list (string * option ExtractedField).

Record ValidationCheck : Type := mkCheck {
  field : string;
  passed : bool;
  message : string
}.

(** [applicantData] is untyped in the source; these are the properties the
    engine reads, each a string when it is there. *)
Record ApplicantData : Type := mkApplicant {
  name : option string;
  dateOfBirth : option string;
  passportNumber : option string;
  nationality : option string;
  intendedVisaType : option string
}.

Module Fields.

(** [fields[key]] *)
Fixpoint get (fields : ExtractedFields) (key : string) : option ExtractedField :=
  match fields with
  | [] => None
  | (k, f) :: rest => if k =? key then f else get rest key
  end.

(** [fields[key]?.value] *)
Definition value_of (fields : ExtractedFields) (key : string) : option string :=
  option_map value (get fields key).

(** The value when [fields[key]?.value] is truthy. *)
Definition present (fields : ExtractedFields) (key : string) : option string :=
  match value_of fields key with
  | Some v => if v =? "" then None else Some v
  | None => None
  end.

(** [Object.values(fields)] and [Object.entries(fields)] are the list
    itself. *)
Definition values (fields : ExtractedFields) : list (option ExtractedField) :=
  map snd fields.

(** [field && field.confidence < 60] *)
Definition low_confidence (f : option ExtractedField) : bool :=
  match f with
  | Some f => (confidence f <? 60)%Z
  | None => false
  end.

End Fields.

(** ** Dates

  A [Date] is its time value; [None] is the Invalid Date, whose time value
  is [NaN].  [parseISO] of date-fns never throws on a string: what it
  cannot read it returns as the Invalid Date. *)

Definition JsDate : Type := option Z.

Record DateLib : Type := mkDateLib {
  (** date-fns [parseISO] *)
  parseISO : string -> JsDate;
  (** date-fns [differenceInYears(left, right)] on valid dates *)
  yearsBetween : Z -> Z -> Z;
  (** date-fns [addMonths(date, amount)] on a valid date *)
  plusMonths : Z -> Z -> Z;
  (** [d.setMonth(d.getMonth() + k)] on a valid date *)
  setMonthPlus : Z -> Z -> Z
}.

Module JsDateOps.

(** date-fns [isBefore(a, b)]: [a.getTime() < b.getTime()], false as soon
    as one side is [NaN]. The operator [<] on two dates is the same. *)
Definition isBefore (a b : JsDate) : bool :=
  match a, b with
  | Some x, Some y => (x <? y)%Z
  | _, _ => false
  end.

(** [differenceInYears(left, right)]; [NaN] on an Invalid Date. *)
Definition differenceInYears (L : DateLib) (l r : JsDate) : option Z :=
  match l, r with
  | Some x, Some y => Some (yearsBetween L x y)
  | _, _ => None
  end.

(** [addMonths(date, amount)]; the Invalid Date when [amount] is
    [undefined]. *)
Definition addMonths (L : DateLib) (d : JsDate) (amount : option Z) : JsDate :=
  match d, amount with
  | Some x, Some k => Some (plusMonths L x k)
  | _, _ => None
  end.

(** Comparisons of a possibly-[NaN] number with a possibly-[undefined]
    bound: false unless both are numbers. *)
Definition num_lt (a b : option Z) : bool :=
  match a, b with
  | Some x, Some y => (x <? y)%Z
  | _, _ => false
  end.

Definition num_ge (a b : option Z) : bool :=
  match a, b with
  | Some x, Some y => (y <=? x)%Z
  | _, _ => false
  end.

End JsDateOps.

(** ** Document validator ([validator.ts], lines 10-245) *)

Module Validator.

Import JsString JsDateOps.

(** The double-quote character of the mismatch messages. *)
Definition dq : string := String "034"%char "".

(** [/^[A-Z0-9<]+$/.test(s)] *)
Definition mrz_char (c : ascii) : bool :=
  is_upper c || is_digit c || (code c =? 60)%nat.

Definition validMRZChars (s : string) : bool :=
  negb (s =? "") && forallb mrz_char (chars s).

Definition validateTD3Checksum (line1 line2 : string) : bool :=
  validMRZChars line1 && validMRZChars line2.

Definition validateTD1Checksum (line1 line2 line3 : string) : bool :=
  validMRZChars line1 && validMRZChars line2 && validMRZChars line3.

(** The [try] block of [validateMRZ]. *)
Definition validateMRZ_body (line1 line2 : string) (line3 : option string) : Exc bool :=
  if (String.length line1 =? 44)%nat && (String.length line2 =? 44)%nat then
    Ok (validateTD3Checksum line1 line2)
  else
    match line3 with
    | Some l3 =>
        if (String.length line1 =? 30)%nat && (String.length line2 =? 30)%nat
           && negb (l3 =? "") && (String.length l3 =? 30)%nat
        then Ok (validateTD1Checksum line1 line2 l3)
        else Ok true
    | None => Ok true
    end.

(** The [catch] clause of [validateMRZ]. *)
Definition validateMRZ_handler (_ : string) : bool := true.

Definition validateMRZ (line1 line2 : string) (line3 : option string) : bool :=
  try_catch (validateMRZ_body line1 line2 line3) validateMRZ_handler.

Section Rules.

Variable L : DateLib.
Variable now : Z.
Variable extractedFields : ExtractedFields.
Variable applicantData : ApplicantData.

(** 1. Document expiry check *)
Definition expiry_checks : list ValidationCheck :=
  match Fields.present extractedFields "expiryDate" with
  | Some v =>
      try_catch
        (let expiryDate := parseISO L v in
         let today := Some now in
         let isExpired := isBefore expiryDate today in
         let first :=
           mkCheck "expiryDate" (negb isExpired)
             (if isExpired then "Document expired on " ++ v
              else "Document valid until " ++ v) in
         let sixMonthsFromNow := Some (setMonthPlus L now 6) in
         Ok (first ::
             if negb isExpired && isBefore expiryDate sixMonthsFromNow
             then [mkCheck "expiryDate" true "Warning: Document expires within 6 months"]
             else []))
        (fun _ => [mkCheck "expiryDate" false "Invalid expiry date format"])
  | None => []
  end.

(** 2. Issue date check *)
Definition issue_checks : list ValidationCheck :=
  match Fields.present extractedFields "issueDate" with
  | Some v =>
      try_catch
        (let issueDate := parseISO L v in
         let today := Some now in
         let isValidIssueDate := isBefore issueDate today in
         Ok [mkCheck "issueDate" isValidIssueDate
               (if isValidIssueDate then "Document issued on " ++ v
                else "Issue date is in the future")])
        (fun _ => [mkCheck "issueDate" false "Invalid issue date format"])
  | None => []
  end.

(** 3. Name matching check *)
Definition name_checks : list ValidationCheck :=
  match name applicantData with
  | Some claimed =>
      if negb (claimed =? "")
         && (truthy (Fields.value_of extractedFields "fullName")
             || truthy (Fields.value_of extractedFields "firstName"))
      then
        let fullName := Fields.present extractedFields "fullName" in
        let extractedName :=
          toLowerCase (trim
            (match fullName with
             | Some v => v
             | None =>
                 or_else (Fields.value_of extractedFields "firstName") "" ++ " "
                 ++ or_else (Fields.value_of extractedFields "lastName") ""
             end)) in
        let applicantName := toLowerCase (trim claimed) in
        let namesMatch :=
          includes extractedName applicantName
          || includes applicantName extractedName
          || negb (Qle_bool (Similarity.calculateSimilarity extractedName applicantName)
                            (7 # 10)) in
        [mkCheck "name" namesMatch
           (if namesMatch then "Name matches application"
            else "Name mismatch: Document shows " ++ dq
                 ++ match fullName with Some v => v | None => extractedName end
                 ++ dq ++ ", application shows " ++ dq ++ claimed ++ dq)]
      else []
  | None => []
  end.

(** 4. Date of birth check, with the age validation *)
Definition dob_checks : list ValidationCheck :=
  match dateOfBirth applicantData, Fields.present extractedFields "dateOfBirth" with
  | Some claimed, Some v =>
      if claimed =? "" then []
      else
        let dobMatch := claimed =? v in
        mkCheck "dateOfBirth" dobMatch
          (if dobMatch then "Date of birth matches application"
           else "DOB mismatch: Document shows " ++ dq ++ v ++ dq
                ++ ", application shows " ++ dq ++ claimed ++ dq)
        :: try_catch
             (let dob := parseISO L v in
              let age := differenceInYears L (Some now) dob in
              let inRange := num_ge age (Some 18%Z) && num_lt age (Some 120%Z) in
              Ok [mkCheck "age" inRange
                    (if inRange
                     then "Applicant age: "
                          ++ match age with Some a => of_Z a | None => "NaN" end
                          ++ " years"
                     else if num_lt age (Some 18%Z)
                          then "Applicant is under 18 - may require guardian"
                          else "Invalid age calculated")])
             (fun _ => [mkCheck "dateOfBirth" false "Invalid date of birth format"])
  | _, _ => []
  end.

(** 5. Passport/Document number check *)
Definition number_checks : list ValidationCheck :=
  match passportNumber applicantData, Fields.present extractedFields "documentNumber" with
  | Some claimed, Some v =>
      if claimed =? "" then []
      else
        let numberMatch := trim (toUpperCase claimed) =? trim (toUpperCase v) in
        [mkCheck "documentNumber" numberMatch
           (if numberMatch then "Document number matches application"
            else "Document number mismatch: Document shows " ++ dq ++ v ++ dq
                 ++ ", application shows " ++ dq ++ claimed ++ dq)]
  | _, _ => []
  end.

(** 6. Nationality check *)
Definition nationality_checks : list ValidationCheck :=
  match nationality applicantData, Fields.present extractedFields "nationality" with
  | Some claimed, Some v =>
      if claimed =? "" then []
      else
        let nationalityMatch := trim (toUpperCase claimed) =? trim (toUpperCase v) in
        [mkCheck "nationality" nationalityMatch
           (if nationalityMatch then "Nationality matches application"
            else "Nationality mismatch: Document shows " ++ dq ++ v ++ dq
                 ++ ", application shows " ++ dq ++ claimed ++ dq)]
  | _, _ => []
  end.

(** 7. MRZ checksum validation *)
Definition mrz_checks : list ValidationCheck :=
  match Fields.present extractedFields "mrzLine1",
        Fields.present extractedFields "mrzLine2" with
  | Some l1, Some l2 =>
      let mrzValid := validateMRZ l1 l2 (Fields.value_of extractedFields "mrzLine3") in
      [mkCheck "mrzChecksum" mrzValid
         (if mrzValid then "MRZ checksum validation passed"
          else "MRZ checksum validation failed - possible forgery or OCR error")]
  | _, _ => []
  end.

(** 8. Document type validation *)
Definition validTypes : list string :=
  ["passport"; "visa"; "nationalId"; "drivingLicense"; "nationalid"; "drivinglicense"].

Definition type_checks : list ValidationCheck :=
  match Fields.present extractedFields "documentType" with
  | Some v =>
      let isValidType := mem (toLowerCase v) validTypes in
      [mkCheck "documentType" isValidType
         (if isValidType then "Document type: " ++ v
          else "Unrecognized document type")]
  | None => []
  end.

(** 9. Confidence score check *)
Definition lowConfidenceFields : list string :=
  map fst (filter (fun kv => Fields.low_confidence (snd kv)) extractedFields).

Definition confidence_checks : list ValidationCheck :=
  if (0 <? List.length lowConfidenceFields)%nat then
    [mkCheck "confidence" false
       ("Low confidence in fields: " ++ join ", " lowConfidenceFields
        ++ " - manual review recommended")]
  else
    [mkCheck "confidence" true
       "All extracted fields have acceptable confidence scores"].

(** The checks in the order they are pushed. *)
Definition validateDocument : list ValidationCheck :=
  expiry_checks ++ issue_checks ++ name_checks ++ dob_checks ++ number_checks
  ++ nationality_checks ++ mrz_checks ++ type_checks ++ confidence_checks.

End Rules.

End Validator.

(** ** Eligibility policy table ([eligibilityPolicies] of [eligibilityEngine.ts]) *)

Module Policy.

Record EligibilityPolicy : Type := mkPolicy {
    visaType : string;
    minAge : Z;
    maxAge : option Z;
    minPassportValidity : Z;
    allowedNationalities : option (list string);
    deniedNationalities : option (list string);
    requiresValidPassport : bool
}.

Definition tourist : EligibilityPolicy := mkPolicy "tourist" 18 None 6 None None true.
Definition business : EligibilityPolicy := mkPolicy "business" 21 None 6 None None true.
Definition student : EligibilityPolicy := mkPolicy "student" 16 (Some 35%Z) 12 None None true.
Definition work : EligibilityPolicy := mkPolicy "work" 18 (Some 65%Z) 12 None None true.
Definition transit : EligibilityPolicy := mkPolicy "transit" 18 None 3 None None true.

Definition eligibilityPolicies : list (string * EligibilityPolicy) :=
  [("tourist", tourist); ("business", business); ("student", student);
   ("work", work); ("transit", transit)].

(** The table is a plain object, so a lookup that misses its own keys goes
    on to [Object.prototype]. *)
Definition prototype_members : list string :=
  ["constructor"; "__defineGetter__"; "__defineSetter__"; "hasOwnProperty";
   "__lookupGetter__"; "__lookupSetter__"; "isPrototypeOf";
   "propertyIsEnumerable"; "toString"; "valueOf"; "__proto__"; "toLocaleString"].

(** What [eligibilityPolicies[key] || eligibilityPolicies.tourist] yields:
    a policy of the table, or an inherited member, which is truthy and has
    none of the policy properties. *)
Inductive Slot : Type :=
| Own (p : EligibilityPolicy)
| Inherited.

Fixpoint own (table : list (string * EligibilityPolicy)) (key : string)
  : option EligibilityPolicy :=
  match table with
  | [] => None
  | (k, p) :: rest => if k =? key then Some p else own rest key
  end.

Definition lookup (key : string) : option Slot :=
  match own eligibilityPolicies key with
  | Some p => Some (Own p)
  | None => if JsString.mem key prototype_members then Some Inherited else None
  end.

Definition select (requested : string) : Slot :=
  match lookup (JsString.toLowerCase requested) with
  | Some s => s
  | None => Own tourist
  end.

(** Property reads on the selected slot; [None] is [undefined]. *)
Definition slot_visaType (s : Slot) : option string :=
  match s with Own p => Some (visaType p) | Inherited => None end.
Definition slot_requiresValidPassport (s : Slot) : bool :=
  match s with Own p => requiresValidPassport p | Inherited => false end.
Definition slot_minAge (s : Slot) : option Z :=
  match s with Own p => Some (minAge p) | Inherited => None end.
Definition slot_maxAge (s : Slot) : option Z :=
  match s with Own p => maxAge p | Inherited => None end.
Definition slot_minPassportValidity (s : Slot) : option Z :=
  match s with Own p => Some (minPassportValidity p) | Inherited => None end.
Definition slot_allowedNationalities (s : Slot) : option (list string) :=
  match s with Own p => allowedNationalities p | Inherited => None end.
Definition slot_deniedNationalities (s : Slot) : option (list string) :=
  match s with Own p => deniedNationalities p | Inherited => None end.

End Policy.

(** ** Eligibility engine ([assessEligibility] of [eligibilityEngine.ts]) *)

Module Eligibility.

Import JsString JsDateOps Policy.

Record EligibilityResult : Type := mkResult {
    eligible : bool;
    reason : string;
    visaType : option string
}.

Definition criticalFields : list string :=
  ["expiryDate"; "documentNumber"; "dateOfBirth"; "name"].

Definition criticalChecks (validationChecks : list ValidationCheck) : list ValidationCheck :=
  filter (fun check => mem (field check) criticalFields) validationChecks.

Definition criticalFailures (validationChecks : list ValidationCheck) : list ValidationCheck :=
  filter (fun check => negb (passed check)) (criticalChecks validationChecks).

(** [`${n}`] for a number that may be [NaN], and for a policy bound that may
    be [undefined]. *)
Definition show_num (n : option Z) : string :=
  match n with Some a => of_Z a | None => "NaN" end.
Definition show_bound (n : option Z) : string :=
  match n with Some a => of_Z a | None => "undefined" end.

(** [passed / total] for two counts with [passed <= total]: [0 / 0] is
    [NaN]. *)
Definition ratio (passedCount total : nat) : option Q :=
  if (total =? 0)%nat then None
  else Some (Z.of_nat passedCount # Pos.of_nat total).

(** [x < bound] for a possibly-[NaN] [x]. *)
Definition q_lt (x : option Q) (bound : Q) : bool :=
  match x with
  | Some q => negb (Qle_bool bound q)
  | None => false
  end.

Definition passRate (validationChecks : list ValidationCheck) : option Q :=
  ratio (List.length (filter passed validationChecks)) (List.length validationChecks).

(** [Math.round(passRate * 100)], in binary64; it is read only where the
    rate is below 0.7, hence where there is a check. *)
Definition percentage (validationChecks : list ValidationCheck) : Z :=
  Binary64.round
    (PrimFloat.mul
       (PrimFloat.div
          (Binary64.of_nat (List.length (filter passed validationChecks)))
          (Binary64.of_nat (List.length validationChecks)))
       (Binary64.of_Z 100)).

Section Rules.

Variable L : DateLib.
Variable now : Z.
Variable extractedFields : ExtractedFields.

(** The string every branch returns as [visaType]. *)
Variable requested : string.
Variable policy : Slot.

Definition reject (why : string) : EligibilityResult :=
  mkResult false why (Some requested).

(** Critical validations *)
Definition critical_rule (validationChecks : list ValidationCheck)
  : option EligibilityResult :=
  if slot_requiresValidPassport policy
     && (0 <? List.length (criticalFailures validationChecks))%nat
  then Some (reject ("Critical validation failures: "
                     ++ join "; " (map message (criticalFailures validationChecks))))
  else None.

(** Age requirements *)
Definition age_rule : option EligibilityResult :=
  match Fields.present extractedFields "dateOfBirth" with
  | Some v =>
      try_catch
        (let dob := parseISO L v in
         let age := differenceInYears L (Some now) dob in
         if num_lt age (slot_minAge policy) then
           Ok (Some (reject ("Applicant age (" ++ show_num age
                             ++ ") is below minimum age requirement ("
                             ++ show_bound (slot_minAge policy) ++ ") for "
                             ++ requested ++ " visa")))
         else
           match slot_maxAge policy with
           | Some m =>
               if negb (m =? 0)%Z && num_lt (Some m) age then
                 Ok (Some (reject ("Applicant age (" ++ show_num age
                                   ++ ") exceeds maximum age requirement ("
                                   ++ of_Z m ++ ") for " ++ requested ++ " visa")))
               else Ok None
           | None => Ok None
           end)
        (fun _ => Some (reject "Unable to verify age - invalid date of birth"))
  | None => None
  end.

(** Passport validity period *)
Definition validity_rule : option EligibilityResult :=
  match Fields.present extractedFields "expiryDate" with
  | Some v =>
      try_catch
        (let expiryDate := parseISO L v in
         let requiredValidUntil :=
           addMonths L (Some now) (slot_minPassportValidity policy) in
         if isBefore expiryDate requiredValidUntil then
           Ok (Some (reject ("Passport must be valid for at least "
                             ++ show_bound (slot_minPassportValidity policy)
                             ++ " months from today. Current expiry: " ++ v)))
         else Ok None)
        (fun _ => Some (reject "Unable to verify passport validity period"))
  | None => None
  end.

(** Nationality restrictions *)
Definition allowed_rule : option EligibilityResult :=
  match slot_allowedNationalities policy, Fields.present extractedFields "nationality" with
  | Some allowed, Some v =>
      let nationality := toUpperCase v in
      if negb (mem nationality allowed) then
        Some (reject ("Nationality " ++ nationality ++ " is not eligible for "
                      ++ requested ++ " visa"))
      else None
  | _, _ => None
  end.

Definition denied_rule : option EligibilityResult :=
  match slot_deniedNationalities policy, Fields.present extractedFields "nationality" with
  | Some denied, Some v =>
      let nationality := toUpperCase v in
      if mem nationality denied then
        Some (reject ("Nationality " ++ nationality ++ " is not eligible for "
                      ++ requested ++ " visa due to policy restrictions"))
      else None
  | _, _ => None
  end.

(** Confidence scores *)
Definition lowConfidenceCount : nat :=
  List.length (filter Fields.low_confidence (Fields.values extractedFields)).

Definition quality_rule : option EligibilityResult :=
  if (3 <? lowConfidenceCount)%nat then
    Some (reject "Document quality insufficient - too many low-confidence field extractions. Manual review required.")
  else None.

(** Overall validation pass rate *)
Definition pass_rate_rule (validationChecks : list ValidationCheck)
  : option EligibilityResult :=
  let rate := passRate validationChecks in
  if q_lt rate (7 # 10) then
    Some (reject ("Insufficient validation pass rate ("
                  ++ of_Z (percentage validationChecks)
                  ++ "%). Multiple checks failed."))
  else None.

Definition accept : EligibilityResult :=
  mkResult true
    ("Applicant meets all eligibility requirements for " ++ requested
     ++ " visa. Document is valid and all required fields verified.")
    (Some requested).

(** The rules in the order of the early returns: the first rejection wins. *)
Fixpoint first_rejection (rules : list (option EligibilityResult))
  : option EligibilityResult :=
  match rules with
  | [] => None
  | Some r :: _ => Some r
  | None :: rest => first_rejection rest
  end.

Definition assess (validationChecks : list ValidationCheck) : EligibilityResult :=
  match first_rejection
          [critical_rule validationChecks; age_rule; validity_rule; allowed_rule;
           denied_rule; quality_rule; pass_rate_rule validationChecks] with
  | Some r => r
  | None => accept
  end.

End Rules.

Definition assessEligibility (L : DateLib) (now : Z) (extractedFields : ExtractedFields)
  (applicantData : ApplicantData) (validationChecks : list ValidationCheck)
  : EligibilityResult :=
  let visaType := or_else (intendedVisaType applicantData) "tourist" in
  let policy := select visaType in
  assess L now extractedFields visaType policy validationChecks.

End Eligibility.

(** ** Aggregator ([documentVerifier.ts]: [calculateOverallConfidence],
    [generateRecommendations]) *)

Module Aggregator.

Import JsString Eligibility.

Definition fieldConfidences (fields : ExtractedFields) : list Z :=
  filter (fun c => (0 <? c)%Z)
    (map (fun f => match f with Some f => confidence f | None => 0%Z end)
       (Fields.values fields)).

(** [xs.reduce((a, b) => a + b, 0)] *)
Definition sum (xs : list Z) : Z := fold_left Z.add xs 0%Z.

(** The confidences are integers between 0 and 100, so their sum is exact
    in binary64 and is taken in [Z]. *)
Definition avgFieldConfidence (fields : ExtractedFields) : PrimFloat.float :=
  let cs := fieldConfidences fields in
  if (0 <? List.length cs)%nat
  then PrimFloat.div (Binary64.of_Z (sum cs)) (Binary64.of_nat (List.length cs))
  else Binary64.of_Z 50.

Definition validationScore (checks : list ValidationCheck) : PrimFloat.float :=
  let passedChecks := List.length (filter passed checks) in
  if (0 <? List.length checks)%nat
  then PrimFloat.mul
         (PrimFloat.div (Binary64.of_nat passedChecks)
            (Binary64.of_nat (List.length checks)))
         (Binary64.of_Z 100)
  else Binary64.of_Z 70.

Definition calculateOverallConfidence (fields : ExtractedFields)
  (checks : list ValidationCheck) : Z :=
  let overall :=
    Binary64.round
      (PrimFloat.add
         (PrimFloat.mul (avgFieldConfidence fields) Binary64.six_tenths)
         (PrimFloat.mul (validationScore checks) Binary64.four_tenths)) in
  Z.min 100 (Z.max 0 overall).

Definition field_has (needles : list string) (c : ValidationCheck) : bool :=
  existsb (includes (field c)) needles.

Definition generateRecommendations (checks : list ValidationCheck)
  (eligibility : EligibilityResult) : list string :=
  let failedChecks := filter (fun c => negb (passed c)) checks in
  if (List.length failedChecks =? 0)%nat && eligible eligibility then
    ["Document appears valid and applicant is eligible";
     "Proceed with visa application processing"]
  else
    (if existsb (field_has ["expiry"; "Expiry"]) failedChecks
     then ["Document has expired - request renewed document"] else [])
    ++ (if existsb (field_has ["MRZ"; "checksum"]) failedChecks
        then ["MRZ validation failed - verify document authenticity"] else [])
    ++ (if existsb (field_has ["name"; "Name"]) failedChecks
        then ["Name mismatch detected - request clarification from applicant"] else [])
    ++ (if negb (eligible eligibility)
        then ["Applicant not eligible for requested visa type";
              "Contact applicant for additional documentation or alternate visa type"]
        else [])
    ++ (if (3 <? List.length failedChecks)%nat
        then ["Multiple validation failures - manual review required"] else []).

End Aggregator.

(** ** Verifier ([documentVerifier.ts]: [estimateConfidence], [generateSummary]
    and the steps of [verifyDocument] that follow the extraction) *)

Module Verifier.

Import JsString Eligibility Aggregator.

(** [/^\d{4}-\d{2}-\d{2}$/.test(value)] *)
Definition dateRegex (s : string) : bool :=
  match chars s with
  | [y1; y2; y3; y4; dash1; m1; m2; dash2; d1; d2] =>
      forallb is_digit [y1; y2; y3; y4; m1; m2; d1; d2]
      && Ascii.eqb dash1 "-" && Ascii.eqb dash2 "-"
  | _ => false
  end.

Definition estimateCriticalFields : list string :=
  ["documentNumber"; "dateOfBirth"; "expiryDate"; "nationality"].

Definition estimateConfidence (fieldName value : string) : Z :=
  if (value =? "") || (trim value =? "") then 0%Z
  else
    let baseConfidence :=
      if mem fieldName estimateCriticalFields then 85%Z else 80%Z in
    if includes fieldName "Date" || includes fieldName "date" then
      if dateRegex value then baseConfidence else (baseConfidence - 20)%Z
    else if includes fieldName "mrz" then
      if (20 <? String.length value)%nat then baseConfidence
      else (baseConfidence - 30)%Z
    else baseConfidence.

(** [`${n}`] for a count. *)
Definition of_nat (n : nat) : string := of_Z (Z.of_nat n).

Definition generateSummary (fields : ExtractedFields) (checks : list ValidationCheck)
  (eligibility : EligibilityResult) : string :=
  let docType := or_else (Fields.value_of fields "documentType") "document" in
  let docNumber := or_else (Fields.value_of fields "documentNumber") "unknown" in
  let name :=
    or_else (Fields.value_of fields "fullName")
      (or_else (Fields.value_of fields "firstName") "unknown") in
  let passedChecks := List.length (filter passed checks) in
  let totalChecks := List.length checks in
  if (passedChecks =? totalChecks)%nat && eligible eligibility then
    "Document verification successful. " ++ docType ++ " #" ++ docNumber ++ " for "
    ++ name ++ " is valid and applicant is eligible for "
    ++ or_else (visaType eligibility) "requested"
    ++ " visa. All validation checks passed (" ++ of_nat passedChecks ++ "/"
    ++ of_nat totalChecks ++ ")."
  else if Qle_bool (inject_Z (Z.of_nat totalChecks) * (7 # 10))
                   (inject_Z (Z.of_nat passedChecks)) then
    "Document partially validated. " ++ docType ++ " #" ++ docNumber ++ " for "
    ++ name ++ " passed " ++ of_nat passedChecks ++ " of " ++ of_nat totalChecks
    ++ " checks. "
    ++ (if eligible eligibility then "Applicant is eligible"
        else "Applicant eligibility unclear")
    ++ ". Manual review recommended."
  else
    "Document validation concerns. " ++ docType ++ " #" ++ docNumber ++ " for "
    ++ name ++ " failed multiple validation checks ("
    ++ of_nat (totalChecks - passedChecks) ++ " failures). "
    ++ (if eligible eligibility then "" else "Applicant not eligible. ")
    ++ "Additional verification required.".

Record VerificationResult : Type := mkVerification {
  overallConfidence : Z;
  extractedFields : ExtractedFields;
  validationChecks : list ValidationCheck;
  eligibilityAssessment : EligibilityResult;
  recommendedActions : list string;
  summary : string
}.

(** Steps 4 to 8 of [verifyDocument], on the fields the extraction
    returned. *)
Definition verifyExtracted (L : DateLib) (now : Z) (fields : ExtractedFields)
  (applicantData : ApplicantData) : VerificationResult :=
  let validationChecks := Validator.validateDocument L now fields applicantData in
  let eligibilityAssessment :=
    assessEligibility L now fields applicantData validationChecks in
  let overallConfidence := calculateOverallConfidence fields validationChecks in
  let recommendedActions :=
    generateRecommendations validationChecks eligibilityAssessment in
  let summary := generateSummary fields validationChecks eligibilityAssessment in
  mkVerification overallConfidence fields validationChecks eligibilityAssessment
    recommendedActions summary.

End Verifier.

(** ** A calendar for examples

    An instance of [DateLib] on the proleptic Gregorian calendar in UTC that
    reads the calendar-date form [YYYY-MM-DD]; it serves to run the engine on
    concrete requests. *)

Module UtcCalendar.

Open Scope Z_scope.

Definition msPerDay : Z := 86400000.

(** Days since 1970-01-01 of year [y], month [m] (1-12), day [d]; linear in
    [d], so a day past the end of the month runs into the next one. *)
Definition days_from_civil (y m d : Z) : Z :=
  let y' := if m <=? 2 then y - 1 else y in
  let era := y' / 400 in
  let yoe := y' - era * 400 in
  let mp := (m + 9) mod 12 in
  let doy := (153 * mp + 2) / 5 + d - 1 in
  let doe := yoe * 365 + yoe / 4 - yoe / 100 + doy in
  era * 146097 + doe - 719468.

Definition civil_from_days (z : Z) : Z * Z * Z :=
  let z' := z + 719468 in
  let era := z' / 146097 in
  let doe := z' - era * 146097 in
  let yoe := (doe - doe / 1460 + doe / 36524 - doe / 146096) / 365 in
  let doy := doe - (365 * yoe + yoe / 4 - yoe / 100) in
  let mp := (5 * doy + 2) / 153 in
  let d := doy - (153 * mp + 2) / 5 + 1 in
  let m := if mp <? 10 then mp + 3 else mp - 9 in
  ((if m <=? 2 then yoe + era * 400 + 1 else yoe + era * 400), m, d).

Definition days_in_month (y m : Z) : Z :=
  if m =? 12 then 31 else days_from_civil y (m + 1) 1 - days_from_civil y m 1.

(** Year, month index from zero (possibly out of range), day and time of day
    back to a time value. *)
Definition make (y month0 d ms : Z) : Z :=
  days_from_civil (y + month0 / 12) (month0 mod 12 + 1) d * msPerDay + ms.

Definition digit (c : ascii) : option Z :=
  if JsString.is_digit c then Some (Z.of_nat (JsString.code c) - 48) else None.

Fixpoint number (acc : Z) (cs : list ascii) : option Z :=
  match cs with
  | [] => Some acc
  | c :: rest =>
      match digit c with
      | Some d => number (10 * acc + d) rest
      | None => None
      end
  end.

Definition parse (s : string) : JsDate :=
  match JsString.chars s with
  | [y1; y2; y3; y4; dash1; m1; m2; dash2; d1; d2] =>
      match number 0 [y1; y2; y3; y4], number 0 [m1; m2], number 0 [d1; d2] with
      | Some y, Some m, Some d =>
          if Ascii.eqb dash1 "-" && Ascii.eqb dash2 "-"
             && (1 <=? m) && (m <=? 12) && (1 <=? d) && (d <=? days_in_month y m)
          then Some (days_from_civil y m d * msPerDay)
          else None
      | _, _, _ => None
      end
  | _ => None
  end.

(** Whole years from [right] to [left]: the calendar-year difference, less
    one when the last year is not complete. *)
Definition years (left right : Z) : Z :=
  let '(yl, ml, dl) := civil_from_days (left / msPerDay) in
  let '(yr, mr, dr) := civil_from_days (right / msPerDay) in
  let within_l := make 1584 (ml - 1) dl (left mod msPerDay) in
  let within_r := make 1584 (mr - 1) dr (right mod msPerDay) in
  let sign := Z.sgn (left - right) in
  let notFull := if Z.sgn (within_l - within_r) =? - sign then 1 else 0 in
  sign * (Z.abs (yl - yr) - notFull).

(** [addMonths]: the day is capped at the end of the target month. *)
Definition add_months (t k : Z) : Z :=
  let '(y, m, d) := civil_from_days (t / msPerDay) in
  let y' := y + (m - 1 + k) / 12 in
  let m' := (m - 1 + k) mod 12 + 1 in
  days_from_civil y' m' (Z.min d (days_in_month y' m')) * msPerDay + t mod msPerDay.

(** [setMonth(getMonth() + k)]: the day is kept and may overflow. *)
Definition set_month_plus (t k : Z) : Z :=
  let '(y, m, d) := civil_from_days (t / msPerDay) in
  make y (m - 1 + k) d (t mod msPerDay).

Definition lib : DateLib := mkDateLib parse years add_months set_month_plus.

(** 2026-11-01T00:00:00Z *)
Definition sample_now : Z := days_from_civil 2026 11 1 * msPerDay.

End UtcCalendar.

(** ** The statements of the specification

    Definitions that follow the words of the specification, to be compared
    with the functions above. *)

Module Spec.

Import JsString.

(** A check that failed on one of the four critical fields. *)
Definition failed_critical (c : ValidationCheck) : bool :=
  negb (passed c)
  && ((field c =? "expiryDate") || (field c =? "documentNumber")
      || (field c =? "dateOfBirth") || (field c =? "name")).

(** The character class [[A-Z0-9<]]. *)
Definition MrzChar (c : ascii) : Prop :=
  (code "A" <= code c <= code "Z")%nat
  \/ (code "0" <= code c <= code "9")%nat
  \/ c = "<"%char.

Definition MrzLine (s : string) : Prop := Forall MrzChar (chars s).

Definition LowerCaseLetter (c : ascii) : Prop :=
  (code "a" <= code c <= code "z")%nat.

(** The confidences of the fields present in the mapping. *)
Definition present_confidences (fields : ExtractedFields) : list Z :=
  flat_map (fun kv => match snd kv with
                      | Some f => [confidence f]
                      | None => []
                      end) fields.

Definition total (xs : list Z) : Z := fold_right Z.add 0%Z xs.

Definition average (xs : list Z) : PrimFloat.float :=
  PrimFloat.div (Binary64.of_Z (total xs)) (Binary64.of_nat (List.length xs)).

Definition positive (c : Z) : bool := (0 <? c)%Z.

(** The field average as the specification words it: over all present
    fields, a confidence of zero counting as zero, and 50 only when no field
    has a confidence above zero. *)
Definition avg_all_present (fields : ExtractedFields) : PrimFloat.float :=
  let cs := present_confidences fields in
  if existsb positive cs then average cs else Binary64.of_Z 50.

(** The field average over the fields with a confidence above zero only, 50
    when there is none. *)
Definition avg_positive (fields : ExtractedFields) : PrimFloat.float :=
  match filter positive (present_confidences fields) with
  | [] => Binary64.of_Z 50
  | cs => average cs
  end.

(** The pass rate times 100, and 70 when there is no check. *)
Definition score (checks : list ValidationCheck) : PrimFloat.float :=
  match checks with
  | [] => Binary64.of_Z 70
  | _ =>
      PrimFloat.mul
        (PrimFloat.div
           (Binary64.of_nat (count_occ bool_dec (map passed checks) true))
           (Binary64.of_nat (List.length checks)))
        (Binary64.of_Z 100)
  end.

Definition clamp (z : Z) : Z :=
  if (z <? 0)%Z then 0%Z else if (100 <? z)%Z then 100%Z else z.

(** The weighted sum of the two scores, evaluated in binary64, rounded to
    the nearest integer and clamped. *)
Definition overall (avg : PrimFloat.float) (checks : list ValidationCheck) : Z :=
  clamp (Binary64.round
           (PrimFloat.add (PrimFloat.mul avg Binary64.six_tenths)
              (PrimFloat.mul (score checks) Binary64.four_tenths))).

Definition overall_as_claimed (fields : ExtractedFields)
  (checks : list ValidationCheck) : Z :=
  overall (avg_all_present fields) checks.

Definition overall_over_positive (fields : ExtractedFields)
  (checks : list ValidationCheck) : Z :=
  overall (avg_positive fields) checks.

(** No failed check has a field name that contains one of [needles]. *)
Definition quiet (needles : list string) (checks : list ValidationCheck) : Prop :=
  forall c needle, In c checks -> passed c = false -> In needle needles ->
                   includes (field c) needle = false.

End Spec.

(** ** Sample requests *)

Module Sample.

Definition nobody : ApplicantData := mkApplicant None None None None None.

Definition traveller : ApplicantData :=
  mkApplicant (Some "John Doe") (Some "1990-01-15") (Some "A12345678")
    (Some "USA") (Some "tourist").

Definition passport : ExtractedFields :=
  [("fullName", Some (mkField "John Doe" 95));
   ("dateOfBirth", Some (mkField "1990-01-15" 90));
   ("documentNumber", Some (mkField "A12345678" 90));
   ("nationality", Some (mkField "USA" 92));
   ("expiryDate", Some (mkField "2030-12-31" 90));
   ("documentType", Some (mkField "passport" 95))].

(** An expiry date that is not an ISO date. *)
Definition slashed_expiry : ExtractedFields :=
  [("expiryDate", Some (mkField "31/12/2030" 90))].

(** A date of birth that is not an ISO date, claimed in the same form. *)
Definition dotted_birth : ExtractedFields :=
  [("dateOfBirth", Some (mkField "15.01.1990" 90))].

Definition dotted_claim : ApplicantData :=
  mkApplicant None (Some "15.01.1990") None None None.

(** One unread field next to one read with full confidence. *)
Definition half_read : ExtractedFields :=
  [("sex", Some (mkField "" 0)); ("fullName", Some (mkField "John Doe" 100))].

(** A request whose visa type differs in case from the policy key. *)
Definition capital_business : ApplicantData :=
  mkApplicant None None None None (Some "Business").

Definition two_failures : list ValidationCheck :=
  [mkCheck "expiryDate" true "Document valid until 2030-12-31";
   mkCheck "name" false "Name mismatch";
   mkCheck "age" false "Applicant is under 18 - may require guardian";
   mkCheck "dateOfBirth" false "DOB mismatch";
   mkCheck "confidence" true "All extracted fields have acceptable confidence scores"].

Definition unknown_type_only : list ValidationCheck :=
  [mkCheck "documentType" false "Unrecognized document type"].

(** The sample passport with a document type the validator does not know. *)
Definition residence_permit : ExtractedFields :=
  [("fullName", Some (mkField "John Doe" 95));
   ("dateOfBirth", Some (mkField "1990-01-15" 90));
   ("documentNumber", Some (mkField "A12345678" 90));
   ("nationality", Some (mkField "USA" 92));
   ("expiryDate", Some (mkField "2030-12-31" 90));
   ("documentType", Some (mkField "residence permit" 95))].

Definition td3_line1 : string := "P<UTOERIKSSON<<ANNA<MARIA<<<<<<<<<<<<<<<<<<<".
Definition td3_line2 : string := "L898902C36UTO7408122F1204159ZE184226B<<<<<10".
Definition td3_line1_lower : string := "P<UTOERIKSSON<<anna<MARIA<<<<<<<<<<<<<<<<<<<".

End Sample.

(** ** Shapes of results *)

Module Shape.

Import Eligibility.

(** A rejection is not eligible and its reason starts with a character
    other than ["U"]. *)
Definition rejection_shape (r : EligibilityResult) : Prop :=
  eligible r = false
  /\ exists c rest, reason r = String c rest /\ c <> "U"%char.

End Shape.

(** ** Further sample requests *)

Module Cases.

(** A traveller born on 2009-06-01, seventeen at the sample instant. *)
Definition minor_passport : ExtractedFields :=
  [("fullName", Some (mkField "John Doe" 95));
   ("dateOfBirth", Some (mkField "2009-06-01" 90));
   ("expiryDate", Some (mkField "2030-12-31" 90))].

Definition minor : ApplicantData :=
  mkApplicant (Some "John Doe") (Some "2009-06-01") None None (Some "tourist").

(** The sample passport, expired in 2020. *)
Definition expired_passport : ExtractedFields :=
  [("fullName", Some (mkField "John Doe" 95));
   ("dateOfBirth", Some (mkField "1990-01-15" 90));
   ("documentNumber", Some (mkField "A12345678" 90));
   ("expiryDate", Some (mkField "2020-12-31" 90))].

(** The claim of the sample traveller with another date of birth. *)
Definition other_birth : ApplicantData :=
  mkApplicant (Some "John Doe") (Some "1985-05-05") (Some "A12345678")
    (Some "USA") (Some "tourist").

(** A passport that expires ten weeks after the sample instant. *)
Definition expiring_passport : ExtractedFields :=
  [("fullName", Some (mkField "John Doe" 95));
   ("dateOfBirth", Some (mkField "1990-01-15" 90));
   ("expiryDate", Some (mkField "2027-01-15" 90))].

(** Four fields read with low confidence. *)
Definition blurred : ExtractedFields :=
  [("fullName", Some (mkField "John Doe" 40));
   ("sex", Some (mkField "M" 10));
   ("placeOfBirth", Some (mkField "Utopia" 30));
   ("issuingCountry", Some (mkField "UTO" 59))].

End Cases.

(** * Properties *)

(** ** The distance matrix computes the edit-distance recurrence *)

Section LevenshteinFacts.

Import Similarity.

Lemma ed_nil_l (b : list ascii) : ed [] b = List.length b.
Proof. destruct b; reflexivity. Qed.

Lemma ed_nil_r (a : list ascii) : ed a [] = List.length a.
Proof. destruct a; reflexivity. Qed.

Lemma ed_cons (x y : ascii) (a b : list ascii) :
  ed (x :: a) (y :: b) =
  if Ascii.eqb y x then ed a b
  else Nat.min (ed a b + 1) (Nat.min (ed a (y :: b) + 1) (ed (x :: a) b + 1)).
Proof. reflexivity. Qed.

Lemma ed_sym (a b : list ascii) : ed a b = ed b a.
Proof.
  revert b; induction a as [|x a IHa]; intros b.
  - now rewrite ed_nil_l, ed_nil_r.
  - induction b as [|y b IHb].
    + now rewrite ed_nil_l, ed_nil_r.
    + rewrite !ed_cons, (Ascii.eqb_sym x y), IHb, (IHa b), (IHa (y :: b)).
      destruct (Ascii.eqb y x); [reflexivity|].
      f_equal. apply Nat.min_comm.
Qed.

Lemma ed_refl (a : list ascii) : ed a a = 0%nat.
Proof.
  induction a as [|x a IH]; [reflexivity|].
  now rewrite ed_cons, Ascii.eqb_refl.
Qed.

Lemma ed_le_max (a b : list ascii) :
  (ed a b <= Nat.max (List.length a) (List.length b))%nat.
Proof.
  revert b; induction a as [|x a IHa]; intros b.
  - rewrite ed_nil_l. simpl. lia.
  - induction b as [|y b IHb].
    + rewrite ed_nil_r. simpl. lia.
    + rewrite ed_cons. specialize (IHa b). simpl List.length.
      destruct (Ascii.eqb y x); lia.
Qed.

Lemma row_of_unfold (ra s1 rb : list ascii) :
  row_of ra s1 rb =
  ed ra rb :: match s1 with [] => [] | c :: s1' => row_of (c :: ra) s1' rb end.
Proof. destruct s1; reflexivity. Qed.

(** One pass of the inner loop turns the row of [rb] into the row of
    [c2 :: rb]. *)
Lemma fill_row_spec (c2 : ascii) (s1 ra rb : list ascii) :
  fill_row c2 s1 (row_of ra s1 rb) (ed ra (c2 :: rb)) = tl (row_of ra s1 (c2 :: rb)).
Proof.
  revert ra; induction s1 as [|c1 s1 IH]; intros ra; [reflexivity|].
  cbn [row_of tl]. rewrite (row_of_unfold (c1 :: ra) s1 rb). cbn [fill_row].
  rewrite <- ed_cons, <- row_of_unfold.
  rewrite IH. now rewrite (row_of_unfold (c1 :: ra) s1 (c2 :: rb)).
Qed.

Lemma fill_rows_spec (s1 s2 rb : list ascii) :
  fill_rows s1 s2 (List.length rb) (row_of [] s1 rb) = row_of [] s1 (rev s2 ++ rb).
Proof.
  revert rb; induction s2 as [|c2 s2 IH]; intros rb; [reflexivity|].
  cbn [fill_rows].
  replace (S (List.length rb) :: fill_row c2 s1 (row_of [] s1 rb) (S (List.length rb)))
    with (row_of [] s1 (c2 :: rb)).
  - change (S (List.length rb)) with (List.length (c2 :: rb)).
    rewrite IH. cbn [rev]. now rewrite <- app_assoc.
  - change (S (List.length rb)) with (ed [] (c2 :: rb)).
    rewrite fill_row_spec. now rewrite (row_of_unfold [] s1 (c2 :: rb)).
Qed.

Lemma row_of_first (ra s1 : list ascii) :
  row_of ra s1 [] = seq (List.length ra) (S (List.length s1)).
Proof.
  revert ra; induction s1 as [|c s1 IH]; intros ra.
  - cbn. now rewrite ed_nil_r.
  - cbn [row_of]. rewrite IH, ed_nil_r. reflexivity.
Qed.

Lemma row_of_last (ra s1 rb : list ascii) :
  nth (List.length s1) (row_of ra s1 rb) 0%nat = ed (rev s1 ++ ra) rb.
Proof.
  revert ra; induction s1 as [|c s1 IH]; intros ra; [reflexivity|].
  cbn [row_of List.length nth]. rewrite IH. cbn [rev]. now rewrite <- app_assoc.
Qed.

Lemma levenshtein_chars_ed (s1 s2 : list ascii) :
  levenshtein_chars s1 s2 = ed (rev s1) (rev s2).
Proof.
  unfold levenshtein_chars.
  replace (seq 0 (S (List.length s1))) with (row_of [] s1 [])
    by apply (row_of_first []).
  pose proof (fill_rows_spec s1 s2 []) as H. cbn [List.length] in H.
  rewrite H, row_of_last. now rewrite !app_nil_r.
Qed.

Lemma chars_length (s : string) : List.length (JsString.chars s) = String.length s.
Proof. induction s; simpl; congruence. Qed.

Lemma levenshtein_sym (a b : string) :
  levenshteinDistance a b = levenshteinDistance b a.
Proof. unfold levenshteinDistance. rewrite !levenshtein_chars_ed. apply ed_sym. Qed.

Lemma levenshtein_refl (a : string) : levenshteinDistance a a = 0%nat.
Proof. unfold levenshteinDistance. rewrite levenshtein_chars_ed. apply ed_refl. Qed.

Lemma levenshtein_le_max (a b : string) :
  (levenshteinDistance a b <= Nat.max (String.length a) (String.length b))%nat.
Proof.
  unfold levenshteinDistance. rewrite levenshtein_chars_ed.
  rewrite <- !chars_length, <- (length_rev (JsString.chars a)),
    <- (length_rev (JsString.chars b)).
  apply ed_le_max.
Qed.

End LevenshteinFacts.

(** ** Similarity *)

Section SimilarityFacts.

Import Similarity.

Lemma pos_of_nat_Z (n : nat) : (0 < n)%nat -> Z.pos (Pos.of_nat n) = Z.of_nat n.
Proof.
  intros Hn. rewrite <- positive_nat_Z, Nat2Pos.id; [reflexivity | lia].
Qed.

(** Whichever argument is taken as the longer one, the quotient is over the
    larger length and the distance of the pair as given. *)
Lemma calculateSimilarity_max (a b : string) :
  calculateSimilarity a b =
  let m := Nat.max (String.length a) (String.length b) in
  if (m =? 0)%nat then 1%Q
  else (Z.of_nat m - Z.of_nat (levenshteinDistance a b)) # Pos.of_nat m.
Proof.
  unfold calculateSimilarity. cbv zeta.
  destruct (String.length b <? String.length a)%nat eqn:Hlt.
  - apply Nat.ltb_lt in Hlt. rewrite Nat.max_l by lia. reflexivity.
  - apply Nat.ltb_ge in Hlt. rewrite Nat.max_r by lia.
    now rewrite (levenshtein_sym b a).
Qed.





End SimilarityFacts.

(** ** Eligibility engine *)

Section EligibilityFacts.

Import JsString Policy Eligibility.

Variable L : DateLib.
Variable now : Z.

Ltac break_match_in H :=
  repeat match type of H with
         | context [match ?x with _ => _ end] => destruct x eqn:?
         end.

Ltac break_matches :=
  repeat match goal with
         | H : Ok _ = Ok _ |- _ => inversion H; subst; clear H
         | H : Some _ = Some _ |- _ => inversion H; subst; clear H
         | H : _ = _ |- _ => discriminate H
         | H : context [match ?x with _ => _ end] |- _ => destruct x eqn:?
         end.

Lemma criticalFailures_spec (checks : list ValidationCheck) :
  criticalFailures checks = filter Spec.failed_critical checks.
Proof.
  unfold criticalFailures, criticalChecks.
  induction checks as [|c checks IH]; [reflexivity|].
  unfold Spec.failed_critical in *. cbn [filter mem existsb criticalFields] in *.
  rewrite orb_false_r, !orb_assoc.
  destruct ((field c =? "expiryDate") || (field c =? "documentNumber")
            || (field c =? "dateOfBirth") || (field c =? "name")); cbn [filter].
  - rewrite andb_true_r. destruct (negb (passed c)); now rewrite IH.
  - now rewrite andb_false_r.
Qed.

Lemma failed_critical_iff (c : ValidationCheck) :
  Spec.failed_critical c = true <->
  passed c = false
  /\ (field c = "expiryDate" \/ field c = "documentNumber"
      \/ field c = "dateOfBirth" \/ field c = "name").
Proof.
  unfold Spec.failed_critical.
  rewrite andb_true_iff, negb_true_iff, !orb_true_iff, !String.eqb_eq. tauto.
Qed.

(** C1. When the selected policy requires a valid passport and some check on
    [expiryDate], [documentNumber], [dateOfBirth] or [name] has failed, the
    result is the rejection whose reason joins the messages of exactly the
    failed critical checks with ["; "], whatever the extracted fields, the
    date and the other checks are: no later rule is consulted. *)
Theorem critical_failure_rejects_first (fields : ExtractedFields)
  (app : ApplicantData) (checks : list ValidationCheck) :
  slot_requiresValidPassport (select (or_else (intendedVisaType app) "tourist")) = true ->
  (exists c, In c checks /\ passed c = false
             /\ (field c = "expiryDate" \/ field c = "documentNumber"
                 \/ field c = "dateOfBirth" \/ field c = "name")) ->
  assessEligibility L now fields app checks =
  mkResult false
    ("Critical validation failures: "
     ++ join "; " (map message (filter Spec.failed_critical checks)))
    (Some (or_else (intendedVisaType app) "tourist")).
Proof.
  intros Hreq (c & Hin & Hfail & Hfield).
  unfold assessEligibility, assess, critical_rule. rewrite Hreq.
  rewrite criticalFailures_spec.
  assert (Hc : In c (filter Spec.failed_critical checks)).
  { apply filter_In. split; [exact Hin|]. apply failed_critical_iff. tauto. }
  destruct (filter Spec.failed_critical checks) as [|c0 rest] eqn:Hf;
    [contradiction|].
  reflexivity.
Qed.

Lemma critical_rule_visaType requested policy checks r :
  critical_rule requested policy checks = Some r -> visaType r = Some requested.
Proof. unfold critical_rule. intros H. break_match_in H; now inversion H. Qed.

Lemma age_rule_visaType fields requested policy r :
  age_rule L now fields requested policy = Some r -> visaType r = Some requested.
Proof.
  unfold age_rule, try_catch. intros H. break_matches; reflexivity.
Qed.

Lemma validity_rule_visaType fields requested policy r :
  validity_rule L now fields requested policy = Some r -> visaType r = Some requested.
Proof.
  unfold validity_rule, try_catch. intros H. break_matches; reflexivity.
Qed.

Lemma allowed_rule_visaType fields requested policy r :
  allowed_rule fields requested policy = Some r -> visaType r = Some requested.
Proof. unfold allowed_rule. intros H. break_match_in H; now inversion H. Qed.

Lemma denied_rule_visaType fields requested policy r :
  denied_rule fields requested policy = Some r -> visaType r = Some requested.
Proof. unfold denied_rule. intros H. break_match_in H; now inversion H. Qed.

Lemma quality_rule_visaType fields requested r :
  quality_rule fields requested = Some r -> visaType r = Some requested.
Proof. unfold quality_rule. intros H. break_match_in H; now inversion H. Qed.

Lemma pass_rate_rule_visaType requested checks r :
  pass_rate_rule requested checks = Some r -> visaType r = Some requested.
Proof.
  unfold pass_rate_rule. cbv zeta. intros H.
  destruct (q_lt _ _); now inversion H.
Qed.

(** C4 (amended). Every branch of [assessEligibility], the first rejection
    included, returns as [visaType] the visa type as it was requested, or
    ["tourist"] when none was requested; the key of the policy that was
    resolved for it is not what is returned. *)
Theorem visaType_is_the_requested_one (fields : ExtractedFields)
  (app : ApplicantData) (checks : list ValidationCheck) :
  visaType (assessEligibility L now fields app checks)
  = Some (or_else (intendedVisaType app) "tourist").
Proof.
  unfold assessEligibility, assess. cbv zeta.
  set (requested := or_else (intendedVisaType app) "tourist").
  set (policy := select requested).
  cbn [first_rejection].
  destruct (critical_rule _ _ _) eqn:H1; [eauto using critical_rule_visaType|].
  destruct (age_rule _ _ _ _ _) eqn:H2; [eauto using age_rule_visaType|].
  destruct (validity_rule _ _ _ _ _) eqn:H3; [eauto using validity_rule_visaType|].
  destruct (allowed_rule _ _ _) eqn:H4; [eauto using allowed_rule_visaType|].
  destruct (denied_rule _ _ _) eqn:H5; [eauto using denied_rule_visaType|].
  destruct (quality_rule _ _) eqn:H6; [eauto using quality_rule_visaType|].
  destruct (pass_rate_rule _ _) eqn:H7; [eauto using pass_rate_rule_visaType|].
  reflexivity.
Qed.

(** C6. With no validation check the pass rate is [0/0 = NaN], which is not
    below 0.7: the pass-rate rule rejects nothing, and [assessEligibility]
    returns the first rejection of the rules on age, passport validity,
    nationality and extraction quality, or else the acceptance. *)
Theorem empty_checks_pass_the_rate_gate (fields : ExtractedFields)
  (app : ApplicantData) :
  let requested := or_else (intendedVisaType app) "tourist" in
  let policy := select requested in
  passRate [] = None
  /\ pass_rate_rule requested [] = None
  /\ assessEligibility L now fields app [] =
     match first_rejection
             [age_rule L now fields requested policy;
              validity_rule L now fields requested policy;
              allowed_rule fields requested policy;
              denied_rule fields requested policy;
              quality_rule fields requested] with
     | Some r => r
     | None => accept requested
     end.
Proof.
  cbv zeta. repeat split.
  unfold assessEligibility, assess, critical_rule. cbv zeta.
  cbn [criticalFailures criticalChecks filter List.length Nat.ltb Nat.leb].
  rewrite andb_false_r.
  change (pass_rate_rule (or_else (intendedVisaType app) "tourist") [])
    with (@None EligibilityResult).
  cbn [first_rejection].
  destruct (age_rule _ _ _ _ _); [reflexivity|].
  destruct (validity_rule _ _ _ _ _); [reflexivity|].
  destruct (allowed_rule _ _ _); [reflexivity|].
  destruct (denied_rule _ _ _); [reflexivity|].
  destruct (quality_rule _ _); reflexivity.
Qed.

End EligibilityFacts.

Section EligibilityExamples.

Import JsString Policy Eligibility.

Lemma critical_failure_rejects_first_witness :
  slot_requiresValidPassport
    (select (or_else (intendedVisaType Sample.traveller) "tourist")) = true
  /\ assessEligibility UtcCalendar.lib UtcCalendar.sample_now Sample.passport
       Sample.traveller Sample.two_failures
     = mkResult false "Critical validation failures: Name mismatch; DOB mismatch"
         (Some "tourist").
Proof.
  split; [reflexivity|].
  apply (critical_failure_rejects_first UtcCalendar.lib UtcCalendar.sample_now
           Sample.passport Sample.traveller Sample.two_failures).
  - reflexivity.
  - exists (mkCheck "name" false "Name mismatch").
    cbn. repeat split; auto.
Defined.

(** C4, as stated, fails: on a request for ["Business"] with nothing
    extracted and no check, the critical rule does not fire, the policy
    resolved is the one keyed ["business"], and the accepting branch returns
    ["Business"]; likewise an unrecognized ["diplomatic"] is resolved to the
    tourist policy and returned as ["diplomatic"]. *)
Lemma visaType_is_not_the_policy_key :
  let lib := UtcCalendar.lib in
  let t := UtcCalendar.sample_now in
  let r := assessEligibility lib t [] Sample.capital_business [] in
  let r' := assessEligibility lib t []
              (mkApplicant None None None None (Some "diplomatic")) [] in
  critical_rule "Business" (select "Business") [] = None
  /\ eligible r = true
  /\ slot_visaType (select "Business") = Some "business"
  /\ visaType r = Some "Business"
  /\ visaType r <> slot_visaType (select "Business")
  /\ slot_visaType (select "diplomatic") = Some "tourist"
  /\ visaType r' = Some "diplomatic"
  /\ visaType r' <> slot_visaType (select "diplomatic").
Proof.
  cbv zeta. repeat split; try reflexivity; vm_compute; discriminate.
Qed.

(** The two [Object.prototype] members whose names survive lower-casing
    select no policy of the table. *)
Lemma inherited_slots :
  select "constructor" = Inherited /\ select "__proto__" = Inherited
  /\ slot_requiresValidPassport (select "constructor") = false.
Proof. repeat split. Qed.

(** Every own policy of the table requires a valid passport. *)
Lemma table_requires_valid_passport (key : string) (p : EligibilityPolicy) :
  own eligibilityPolicies key = Some p -> requiresValidPassport p = true.
Proof.
  unfold eligibilityPolicies. cbn [own].
  repeat match goal with
         | |- context [if ?k =? key then _ else _] => destruct (k =? key)
         end; intros H; inversion H; reflexivity.
Qed.

End EligibilityExamples.

(** ** Aggregator *)

Section AggregatorFacts.

Import JsString Eligibility Aggregator.

Lemma fieldConfidences_spec (fields : ExtractedFields) :
  fieldConfidences fields = filter Spec.positive (Spec.present_confidences fields).
Proof.
  unfold fieldConfidences, Fields.values, Spec.present_confidences.
  induction fields as [|[k [f|]] fields IH]; cbn [map snd flat_map filter app].
  - reflexivity.
  - fold (Spec.positive (confidence f)). rewrite IH.
    destruct (Spec.positive (confidence f)); reflexivity.
  - exact IH.
Qed.

Lemma fold_left_add (xs : list Z) (a : Z) :
  fold_left Z.add xs a = (a + Spec.total xs)%Z.
Proof.
  unfold Spec.total.
  revert a; induction xs as [|x xs IH]; intros a; cbn [fold_left fold_right].
  - lia.
  - rewrite IH. lia.
Qed.

Lemma avgFieldConfidence_spec (fields : ExtractedFields) :
  avgFieldConfidence fields = Spec.avg_positive fields.
Proof.
  unfold avgFieldConfidence, Spec.avg_positive. cbv zeta.
  rewrite fieldConfidences_spec.
  destruct (filter Spec.positive (Spec.present_confidences fields)) as [|c cs];
    [reflexivity|].
  cbn [List.length Nat.ltb Nat.leb]. unfold Spec.average, sum.
  rewrite fold_left_add, Z.add_0_l. reflexivity.
Qed.

Lemma passed_count (checks : list ValidationCheck) :
  List.length (filter passed checks) = count_occ bool_dec (map passed checks) true.
Proof.
  induction checks as [|c checks IH]; [reflexivity|].
  cbn [filter map count_occ]. destruct (passed c); cbn; now rewrite IH.
Qed.

Lemma validationScore_spec (checks : list ValidationCheck) :
  validationScore checks = Spec.score checks.
Proof.
  unfold validationScore, Spec.score. cbv zeta.
  destruct checks as [|c checks]; [reflexivity|].
  cbn [Nat.ltb Nat.leb List.length].
  now rewrite passed_count.
Qed.

Lemma clamp_spec (z : Z) : Z.min 100 (Z.max 0 z) = Spec.clamp z.
Proof.
  unfold Spec.clamp.
  destruct (z <? 0)%Z eqn:H0; [apply Z.ltb_lt in H0; lia|].
  apply Z.ltb_ge in H0.
  destruct (100 <? z)%Z eqn:H1; [apply Z.ltb_lt in H1 | apply Z.ltb_ge in H1]; lia.
Qed.

(** C3 (amended). [calculateOverallConfidence] is
    [round (0.6 * avg + 0.4 * score)], evaluated in binary64, clamped to
    [[0,100]], where [avg] is the average confidence over the fields whose
    confidence is above zero (fields with confidence zero are left out of
    the average, not counted as zero), 50 when there is no such field, and
    [score] is [100 * passRate], 70 when there is no check. *)
Theorem calculateOverallConfidence_spec (fields : ExtractedFields)
  (checks : list ValidationCheck) :
  calculateOverallConfidence fields checks = Spec.overall_over_positive fields checks
  /\ (0 <= calculateOverallConfidence fields checks <= 100)%Z.
Proof.
  split.
  - unfold calculateOverallConfidence, Spec.overall_over_positive, Spec.overall.
    cbv zeta. rewrite clamp_spec.
    now rewrite avgFieldConfidence_spec, validationScore_spec.
  - unfold calculateOverallConfidence. cbv zeta. lia.
Qed.

(** C3, as stated, fails: with one field present at confidence 0 and one at
    confidence 100, and no check, the average the code takes is 100 and the
    result 88, where the average over all present fields is 50 and the
    result would be 58. *)
Lemma unread_fields_are_left_out_of_the_average :
  calculateOverallConfidence Sample.half_read [] = 88%Z
  /\ Spec.overall_as_claimed Sample.half_read [] = 58%Z
  /\ calculateOverallConfidence Sample.half_read []
     <> Spec.overall_as_claimed Sample.half_read [].
Proof. repeat split; vm_compute; (reflexivity || discriminate). Qed.

Lemma existsb_field_has (needles : list string) (checks : list ValidationCheck) :
  Spec.quiet needles checks ->
  existsb (field_has needles) (filter (fun c => negb (passed c)) checks) = false.
Proof.
  intros Hq. apply not_true_is_false. intros Hex.
  apply existsb_exists in Hex as (c & Hc & Hhas).
  apply filter_In in Hc as (Hin & Hfail). apply negb_true_iff in Hfail.
  unfold field_has in Hhas. apply existsb_exists in Hhas as (needle & Hn & Hinc).
  rewrite (Hq c needle Hin Hfail Hn) in Hinc. discriminate.
Qed.

(** C10. [generateRecommendations] returns the empty list whenever some check
    failed, the applicant is eligible, no failed check has a field name
    containing ["expiry"], ["Expiry"], ["MRZ"], ["checksum"], ["name"] or
    ["Name"], and at most three checks failed. *)
Theorem generateRecommendations_can_be_empty (checks : list ValidationCheck)
  (eligibility : EligibilityResult) :
  (exists c, In c checks /\ passed c = false) ->
  eligible eligibility = true ->
  Spec.quiet ["expiry"; "Expiry"; "MRZ"; "checksum"; "name"; "Name"] checks ->
  (List.length (filter (fun c => negb (passed c)) checks) <= 3)%nat ->
  generateRecommendations checks eligibility = [].
Proof.
  intros (c & Hin & Hfail) Helig Hq Hfew.
  unfold generateRecommendations. cbv zeta.
  assert (Hc : In c (filter (fun c => negb (passed c)) checks)).
  { apply filter_In. split; [exact Hin|]. now rewrite Hfail. }
  destruct (List.length (filter (fun c => negb (passed c)) checks) =? 0)%nat eqn:Hlen.
  { apply Nat.eqb_eq, length_zero_iff_nil in Hlen. rewrite Hlen in Hc. contradiction. }
  cbn [andb]. rewrite Helig. cbn [negb].
  rewrite !existsb_field_has.
  - apply Nat.ltb_ge in Hfew. rewrite Hfew. reflexivity.
  - intros c' n Hc' Hf' Hn. apply (Hq c' n Hc' Hf'). cbn in *. tauto.
  - intros c' n Hc' Hf' Hn. apply (Hq c' n Hc' Hf'). cbn in *. tauto.
  - intros c' n Hc' Hf' Hn. apply (Hq c' n Hc' Hf'). cbn in *. tauto.
Qed.

End AggregatorFacts.

(** ** Document validator *)

Section ValidatorFacts.

Import JsString JsDateOps Validator.

Variable L : DateLib.
Variable now : Z.

(** What the expiry rule emits for a date that [parseISO] reads. *)
Lemma expiry_checks_parseable (fields : ExtractedFields) (v : string) (t : Z) :
  Fields.present fields "expiryDate" = Some v ->
  parseISO L v = Some t ->
  expiry_checks L now fields =
  mkCheck "expiryDate" (now <=? t)%Z
    (if (t <? now)%Z then "Document expired on " ++ v
     else "Document valid until " ++ v)
  :: (if (now <=? t)%Z && (t <? setMonthPlus L now 6)%Z
      then [mkCheck "expiryDate" true "Warning: Document expires within 6 months"]
      else []).
Proof.
  intros Hv Ht. unfold expiry_checks. rewrite Hv. cbv zeta. rewrite Ht.
  cbn [try_catch isBefore]. now rewrite <- Z.leb_antisym.
Qed.

(** The [catch] clause of the expiry rule is dead: its check is never
    emitted. *)
Lemma expiry_checks_never_invalid_format (fields : ExtractedFields) :
  ~ In (mkCheck "expiryDate" false "Invalid expiry date format")
       (expiry_checks L now fields).
Proof.
  unfold expiry_checks.
  destruct (Fields.present fields "expiryDate") as [v|]; [|intros []].
  cbv zeta. cbn [try_catch].
  destruct (isBefore (parseISO L v) (Some now));
    destruct (isBefore (parseISO L v) (Some (setMonthPlus L now 6)));
    cbn; intros H; repeat destruct H as [H|H]; try discriminate H; exact H.
Qed.

(** C2 (behaviour of the code). An expiry date that is present but that
    [parseISO] cannot read yields the Invalid Date, not an exception; it is
    not before now, so the rule emits the single, passed check "Document valid
    until ..." and no failed "invalid format" check. *)
Theorem unparseable_expiry_is_reported_valid (fields : ExtractedFields) (v : string) :
  Fields.present fields "expiryDate" = Some v ->
  parseISO L v = None ->
  expiry_checks L now fields = [mkCheck "expiryDate" true ("Document valid until " ++ v)].
Proof.
  intros Hv Ht. unfold expiry_checks. rewrite Hv. cbv zeta. rewrite Ht. reflexivity.
Qed.

(** What the date-of-birth rule emits for a date that [parseISO] reads. *)
Lemma dob_checks_parseable (fields : ExtractedFields) (app : ApplicantData)
  (claimed v : string) (t : Z) :
  dateOfBirth app = Some claimed -> claimed <> "" ->
  Fields.present fields "dateOfBirth" = Some v ->
  parseISO L v = Some t ->
  let age := yearsBetween L now t in
  exists m1 m2,
    dob_checks L now fields app =
    [mkCheck "dateOfBirth" (claimed =? v) m1;
     mkCheck "age" ((18 <=? age)%Z && (age <? 120)%Z) m2].
Proof.
  intros Hc Hne Hv Ht. cbv zeta. unfold dob_checks. rewrite Hc, Hv.
  apply String.eqb_neq in Hne. rewrite Hne. cbv zeta. rewrite Ht.
  cbn [try_catch differenceInYears num_ge num_lt]. eauto.
Qed.

(** C5 (behaviour of the code). When both dates of birth are present and the
    extracted one cannot be read by [parseISO], the rule emits the equality
    check followed by a failed check on field ["age"] with the message
    "Invalid age calculated"; no failed ["dateOfBirth"] check with a format
    message is emitted. *)
Theorem unparseable_birth_date_fails_the_age_check (fields : ExtractedFields)
  (app : ApplicantData) (claimed v : string) :
  dateOfBirth app = Some claimed -> claimed <> "" ->
  Fields.present fields "dateOfBirth" = Some v ->
  parseISO L v = None ->
  dob_checks L now fields app =
  [mkCheck "dateOfBirth" (claimed =? v)
     (if claimed =? v then "Date of birth matches application"
      else "DOB mismatch: Document shows " ++ dq ++ v ++ dq
           ++ ", application shows " ++ dq ++ claimed ++ dq);
   mkCheck "age" false "Invalid age calculated"].
Proof.
  intros Hc Hne Hv Ht. unfold dob_checks. rewrite Hc, Hv.
  apply String.eqb_neq in Hne. rewrite Hne. cbv zeta. rewrite Ht. reflexivity.
Qed.

(** The [catch] clause of the date-of-birth rule is dead as well. *)
Lemma dob_checks_never_invalid_format (fields : ExtractedFields) (app : ApplicantData) :
  ~ In (mkCheck "dateOfBirth" false "Invalid date of birth format")
       (dob_checks L now fields app).
Proof.
  unfold dob_checks.
  destruct (dateOfBirth app) as [claimed|]; [|intros []].
  destruct (Fields.present fields "dateOfBirth") as [v|]; [|intros []].
  destruct (claimed =? ""); [intros []|].
  cbv zeta. cbn [try_catch].
  destruct (claimed =? v);
    destruct (num_ge _ _ && num_lt _ _);
    try destruct (num_lt _ _);
    cbn; intros H; repeat destruct H as [H|H]; try discriminate H; exact H.
Qed.

End ValidatorFacts.

(** ** MRZ structural check *)

Section MrzFacts.

Import JsString Validator.

Lemma code_lt (c : ascii) : code c = 60%nat <-> c = "<"%char.
Proof.
  unfold code. split; intros H.
  - rewrite <- (ascii_nat_embedding c), H. reflexivity.
  - now subst.
Qed.

Lemma mrz_char_iff (c : ascii) : mrz_char c = true <-> Spec.MrzChar c.
Proof.
  unfold mrz_char, Spec.MrzChar, is_upper, is_digit.
  rewrite !orb_true_iff, !andb_true_iff, !Nat.leb_le, Nat.eqb_eq, code_lt.
  change (code "A") with 65%nat. change (code "Z") with 90%nat.
  change (code "0") with 48%nat. change (code "9") with 57%nat. tauto.
Qed.

Lemma lower_case_not_mrz (c : ascii) : Spec.LowerCaseLetter c -> mrz_char c = false.
Proof.
  unfold Spec.LowerCaseLetter, mrz_char, is_upper, is_digit.
  change (code "a") with 97%nat. change (code "z") with 122%nat. intros [Hlo Hhi].
  apply not_true_is_false.
  rewrite !orb_true_iff, !andb_true_iff, !Nat.leb_le, Nat.eqb_eq. lia.
Qed.

Lemma forallb_mrz_line (s : string) :
  forallb mrz_char (chars s) = true <-> Spec.MrzLine s.
Proof.
  unfold Spec.MrzLine. rewrite forallb_forall, Forall_forall.
  split; intros H c Hc; apply mrz_char_iff, H, Hc.
Qed.

Lemma validMRZChars_iff (s : string) :
  (0 < String.length s)%nat -> validMRZChars s = true <-> Spec.MrzLine s.
Proof.
  intros Hlen. unfold validMRZChars.
  destruct s as [|c s]; [cbn in Hlen; lia|].
  cbn [String.eqb negb andb]. apply forallb_mrz_line.
Qed.

Lemma validMRZChars_lower (s : string) (c : ascii) :
  In c (chars s) -> Spec.LowerCaseLetter c -> validMRZChars s = false.
Proof.
  intros Hin Hlow. unfold validMRZChars.
  apply andb_false_iff. right. apply not_true_is_false. intros Hall.
  rewrite forallb_forall in Hall. specialize (Hall c Hin).
  rewrite (lower_case_not_mrz c Hlow) in Hall. discriminate.
Qed.

(** C7. Two lines of 44 characters are checked as TD-3 and three lines of 30
    as TD-1; a classified format is valid exactly when every participating
    line consists of upper-case letters, digits and ["<"], so a lower-case
    letter in a 44/44 pair fails it; every other combination of lengths is
    valid, and so is any error caught inside the check. *)
Theorem validateMRZ_structural (line1 line2 : string) (line3 : option string) :
  (String.length line1 = 44%nat -> String.length line2 = 44%nat ->
   (validateMRZ line1 line2 line3 = true <-> Spec.MrzLine line1 /\ Spec.MrzLine line2))
  /\ (forall l3, line3 = Some l3 ->
      String.length line1 = 30%nat -> String.length line2 = 30%nat ->
      String.length l3 = 30%nat ->
      (validateMRZ line1 line2 line3 = true
       <-> Spec.MrzLine line1 /\ Spec.MrzLine line2 /\ Spec.MrzLine l3))
  /\ (~ (String.length line1 = 44%nat /\ String.length line2 = 44%nat) ->
      ~ (String.length line1 = 30%nat /\ String.length line2 = 30%nat
         /\ exists l3, line3 = Some l3 /\ String.length l3 = 30%nat) ->
      validateMRZ line1 line2 line3 = true)
  /\ (String.length line1 = 44%nat -> String.length line2 = 44%nat ->
      (exists c, (In c (chars line1) \/ In c (chars line2)) /\ Spec.LowerCaseLetter c) ->
      validateMRZ line1 line2 line3 = false)
  /\ (forall e, try_catch (Throw e) validateMRZ_handler = true).
Proof.
  unfold validateMRZ, validateMRZ_body.
  split; [|split; [|split; [|split]]].
  - intros H1 H2. rewrite H1, H2, !Nat.eqb_refl. cbn [andb try_catch].
    unfold validateTD3Checksum.
    rewrite andb_true_iff, !validMRZChars_iff by lia. tauto.
  - intros l3 -> H1 H2 H3. rewrite H1, H2, H3, !Nat.eqb_refl.
    change (30 =? 44)%nat with false.
    destruct l3 as [|c l3]; [discriminate H3|].
    cbn [String.eqb negb andb try_catch]. unfold validateTD1Checksum.
    rewrite !andb_true_iff, !validMRZChars_iff by lia. tauto.
  - intros N44 N30.
    destruct ((String.length line1 =? 44)%nat && (String.length line2 =? 44)%nat) eqn:E44.
    { apply andb_true_iff in E44 as [E1 E2]. apply Nat.eqb_eq in E1, E2. tauto. }
    destruct line3 as [l3|]; [|reflexivity].
    destruct ((String.length line1 =? 30)%nat && (String.length line2 =? 30)%nat
              && negb (l3 =? "") && (String.length l3 =? 30)%nat) eqn:E30;
      [|reflexivity].
    rewrite !andb_true_iff, !Nat.eqb_eq in E30. exfalso. apply N30.
    repeat split; try tauto. exists l3. tauto.
  - intros H1 H2 (c & Hin & Hlow). rewrite H1, H2, !Nat.eqb_refl.
    cbn [andb try_catch]. unfold validateTD3Checksum. apply andb_false_iff.
    destruct Hin as [Hin|Hin]; [left | right]; eapply validMRZChars_lower; eauto.
  - reflexivity.
Qed.

Lemma validateMRZ_structural_witness :
  validateMRZ Sample.td3_line1 Sample.td3_line2 None = true
  /\ validateMRZ Sample.td3_line1_lower Sample.td3_line2 None = false
  /\ validateMRZ "P<UTO" Sample.td3_line2 None = true.
Proof.
  split; [|split].
  - apply (proj1 (validateMRZ_structural Sample.td3_line1 Sample.td3_line2 None));
      [reflexivity | reflexivity |].
    split; apply forallb_mrz_line; reflexivity.
  - apply (proj1 (proj2 (proj2 (proj2
             (validateMRZ_structural Sample.td3_line1_lower Sample.td3_line2 None)))));
      [reflexivity | reflexivity |].
    exists "a"%char. split; [left; cbn; tauto | unfold Spec.LowerCaseLetter; cbn; lia].
  - apply (proj1 (proj2 (proj2
             (validateMRZ_structural "P<UTO" Sample.td3_line2 None)))).
    + cbn. intros [H _]. discriminate H.
    + cbn. intros [H _]. discriminate H.
Defined.

End MrzFacts.

(** ** The empty extraction *)

Section EmptyExtraction.

Import JsString Policy Eligibility Aggregator Validator.

Variable L : DateLib.
Variable now : Z.

Lemma validateDocument_empty (app : ApplicantData) :
  validateDocument L now [] app =
  [mkCheck "confidence" true "All extracted fields have acceptable confidence scores"].
Proof.
  unfold validateDocument, expiry_checks, issue_checks, name_checks, dob_checks,
    number_checks, nationality_checks, mrz_checks, type_checks, confidence_checks.
  destruct app as [[n|] [d|] [p|] [c|] v]; cbn; rewrite ?andb_false_r; reflexivity.
Qed.

Lemma assess_empty (requested : string) (policy : Slot) :
  assess L now [] requested policy
    [mkCheck "confidence" true "All extracted fields have acceptable confidence scores"]
  = accept requested.
Proof.
  unfold assess, critical_rule, age_rule, validity_rule, allowed_rule, denied_rule,
    quality_rule, pass_rate_rule.
  cbn. rewrite andb_false_r.
  destruct (slot_allowedNationalities policy), (slot_deniedNationalities policy);
    reflexivity.
Qed.

(** C9. With nothing extracted, whatever the applicant claims:
    [validateDocument] returns the single passed [confidence] check,
    [assessEligibility] on it accepts, and [calculateOverallConfidence] is
    70. *)
Theorem empty_extraction_is_accepted (app : ApplicantData) :
  let checks := validateDocument L now [] app in
  checks = [mkCheck "confidence" true
              "All extracted fields have acceptable confidence scores"]
  /\ eligible (assessEligibility L now [] app checks) = true
  /\ calculateOverallConfidence [] checks = 70%Z.
Proof.
  cbv zeta. rewrite validateDocument_empty. repeat split.
  unfold assessEligibility. cbv zeta. rewrite assess_empty. reflexivity.
Qed.

End EmptyExtraction.

(** ** The engine on the sample requests *)

Section Runs.

Import JsString Policy Eligibility Aggregator Validator.

Lemma unparseable_expiry_is_reported_valid_witness :
  Fields.present Sample.slashed_expiry "expiryDate" = Some "31/12/2030"
  /\ parseISO UtcCalendar.lib "31/12/2030" = None
  /\ expiry_checks UtcCalendar.lib UtcCalendar.sample_now Sample.slashed_expiry
     = [mkCheck "expiryDate" true "Document valid until 31/12/2030"].
Proof.
  split; [reflexivity|]. split; [reflexivity|].
  apply (unparseable_expiry_is_reported_valid UtcCalendar.lib UtcCalendar.sample_now
           Sample.slashed_expiry "31/12/2030"); reflexivity.
Defined.

Lemma unparseable_birth_date_fails_the_age_check_witness :
  dateOfBirth Sample.dotted_claim = Some "15.01.1990"
  /\ Fields.present Sample.dotted_birth "dateOfBirth" = Some "15.01.1990"
  /\ parseISO UtcCalendar.lib "15.01.1990" = None
  /\ dob_checks UtcCalendar.lib UtcCalendar.sample_now Sample.dotted_birth
       Sample.dotted_claim
     = [mkCheck "dateOfBirth" true "Date of birth matches application";
        mkCheck "age" false "Invalid age calculated"].
Proof.
  repeat (split; [reflexivity|]).
  apply (unparseable_birth_date_fails_the_age_check UtcCalendar.lib
           UtcCalendar.sample_now Sample.dotted_birth Sample.dotted_claim
           "15.01.1990" "15.01.1990"); try reflexivity.
  discriminate.
Defined.

(** The whole validator on the two malformed dates: no failed check at
    all. *)
Example validateDocument_slashed_expiry :
  validateDocument UtcCalendar.lib UtcCalendar.sample_now Sample.slashed_expiry
    Sample.nobody
  = [mkCheck "expiryDate" true "Document valid until 31/12/2030";
     mkCheck "confidence" true "All extracted fields have acceptable confidence scores"].
Proof. reflexivity. Qed.

Example validateDocument_dotted_birth :
  validateDocument UtcCalendar.lib UtcCalendar.sample_now Sample.dotted_birth
    Sample.dotted_claim
  = [mkCheck "dateOfBirth" true "Date of birth matches application";
     mkCheck "age" false "Invalid age calculated";
     mkCheck "confidence" true "All extracted fields have acceptable confidence scores"].
Proof. reflexivity. Qed.

(** The sample passport against the sample claim. *)
Example sample_passport_run :
  let checks := validateDocument UtcCalendar.lib UtcCalendar.sample_now
                  Sample.passport Sample.traveller in
  forallb passed checks = true
  /\ eligible (assessEligibility UtcCalendar.lib UtcCalendar.sample_now
                 Sample.passport Sample.traveller checks) = true
  /\ calculateOverallConfidence Sample.passport checks = 95%Z.
Proof. cbv zeta. repeat split; vm_compute; reflexivity. Qed.

Lemma generateRecommendations_can_be_empty_witness :
  let checks := validateDocument UtcCalendar.lib UtcCalendar.sample_now
                  Sample.residence_permit Sample.traveller in
  let verdict := assessEligibility UtcCalendar.lib UtcCalendar.sample_now
                   Sample.residence_permit Sample.traveller checks in
  In (mkCheck "documentType" false "Unrecognized document type") checks
  /\ eligible verdict = true
  /\ generateRecommendations checks verdict = [].
Proof.
  cbv zeta. split; [vm_compute; tauto|]. split; [vm_compute; reflexivity|].
  apply generateRecommendations_can_be_empty.
  - exists (mkCheck "documentType" false "Unrecognized document type").
    split; [vm_compute; tauto | reflexivity].
  - vm_compute; reflexivity.
  - intros c needle Hc Hf Hn. vm_compute in Hc.
    repeat destruct Hc as [Hc|Hc]; try contradiction; subst c;
      try discriminate Hf.
    cbn in Hn. repeat destruct Hn as [Hn|Hn]; try contradiction; subst needle;
      reflexivity.
  - vm_compute; lia.
Defined.

End Runs.

(** * Further properties of the engine *)

(** ** Edit distance and similarity *)

Section SimilarityMore.

Import Similarity.

Lemma ed_zero_iff (a b : list ascii) : ed a b = 0%nat <-> a = b.
Proof.
  split; [|intros ->; apply ed_refl].
  revert b; induction a as [|x a IH]; intros b.
  - rewrite ed_nil_l. intros H. symmetry. now apply length_zero_iff_nil.
  - destruct b as [|y b]; [rewrite ed_nil_r; discriminate|].
    rewrite ed_cons. destruct (Ascii.eqb y x) eqn:E.
    + apply Ascii.eqb_eq in E. intros H. now rewrite (IH b H), E.
    + lia.
Qed.

Lemma ed_length_gap (a b : list ascii) :
  (List.length a <= ed a b + List.length b)%nat
  /\ (List.length b <= ed a b + List.length a)%nat.
Proof.
  revert b; induction a as [|x a IHa]; intros b.
  - rewrite ed_nil_l. cbn. lia.
  - induction b as [|y b IHb].
    + rewrite ed_nil_r. cbn. lia.
    + rewrite ed_cons. cbn [List.length].
      pose proof (IHa b). pose proof (IHa (y :: b)). cbn [List.length] in *.
      destruct (Ascii.eqb y x); lia.
Qed.

Lemma chars_inj (a b : string) : JsString.chars a = JsString.chars b -> a = b.
Proof.
  unfold JsString.chars. intros H.
  rewrite <- (string_of_list_ascii_of_string a), <- (string_of_list_ascii_of_string b).
  now rewrite H.
Qed.

Lemma levenshtein_zero_iff (a b : string) :
  levenshteinDistance a b = 0%nat <-> a = b.
Proof.
  unfold levenshteinDistance. rewrite levenshtein_chars_ed, ed_zero_iff.
  split.
  - intros H. apply chars_inj.
    rewrite <- (rev_involutive (JsString.chars a)), H. apply rev_involutive.
  - now intros ->.
Qed.

Lemma levenshtein_length_gap (a b : string) :
  (Nat.max (String.length a) (String.length b)
   - Nat.min (String.length a) (String.length b)
   <= levenshteinDistance a b)%nat.
Proof.
  unfold levenshteinDistance. rewrite levenshtein_chars_ed.
  pose proof (ed_length_gap (rev (JsString.chars a)) (rev (JsString.chars b))) as H.
  rewrite !length_rev, !chars_length in H. lia.
Qed.

(** X1. Two strings are at similarity 1 exactly when they are equal. *)
Theorem calculateSimilarity_one_iff (a b : string) :
  (calculateSimilarity a b == 1)%Q <-> a = b.
Proof.
  split.
  - rewrite calculateSimilarity_max. cbv zeta.
    destruct (Nat.max _ _ =? 0)%nat eqn:Hm.
    + apply Nat.eqb_eq in Hm. intros _.
      destruct a, b; cbn in Hm; try lia. reflexivity.
    + apply Nat.eqb_neq in Hm. unfold Qeq. cbn [Qnum Qden].
      rewrite pos_of_nat_Z by lia. intros H.
      apply levenshtein_zero_iff. lia.
  - intros ->. rewrite calculateSimilarity_max. cbv zeta.
    rewrite levenshtein_refl, Nat.max_id.
    destruct (String.length b =? 0)%nat eqn:Hm; [reflexivity|].
    apply Nat.eqb_neq in Hm.
    unfold Qeq; cbn [Qnum Qden]. rewrite pos_of_nat_Z by lia. lia.
Qed.

(** X2. The distance is at least the difference of the lengths, so a pair
    whose shorter string has at most 70 percent of the length of the longer
    one is never above the similarity threshold 0.7 of the name check. *)
Theorem length_gap_bounds_similarity (a b : string) :
  (0 < Nat.max (String.length a) (String.length b))%nat ->
  (10 * Nat.min (String.length a) (String.length b)
   <= 7 * Nat.max (String.length a) (String.length b))%nat ->
  (Nat.max (String.length a) (String.length b)
   - Nat.min (String.length a) (String.length b) <= levenshteinDistance a b)%nat
  /\ Qle_bool (calculateSimilarity a b) (7 # 10) = true.
Proof.
  intros Hpos Hgap. pose proof (levenshtein_length_gap a b) as Hd.
  split; [exact Hd|].
  rewrite calculateSimilarity_max. cbv zeta.
  destruct (Nat.max _ _ =? 0)%nat eqn:Hm; [apply Nat.eqb_eq in Hm; lia|].
  apply Qle_bool_iff. unfold Qle. cbn [Qnum Qden].
  rewrite pos_of_nat_Z by lia. lia.
Qed.

Lemma length_gap_bounds_similarity_witness :
  (10 <= levenshteinDistance "jo" "jonathan doe")%nat
  /\ Qle_bool (calculateSimilarity "jo" "jonathan doe") (7 # 10) = true.
Proof.
  apply (length_gap_bounds_similarity "jo" "jonathan doe"); cbn; lia.
Defined.

End SimilarityMore.

(** ** The checks the validator emits *)

Section ValidatorMore.

Import JsString JsDateOps Validator.

Variable L : DateLib.
Variable now : Z.

Ltac in_cases H :=
  cbv zeta in H; cbn [try_catch] in H;
  repeat match type of H with
         | context [match ?x with _ => _ end] => destruct x
         end;
  cbn [In] in H;
  repeat match type of H with
         | _ \/ _ => destruct H as [H|H]
         end;
  try contradiction; subst; cbn [field]; auto.

Lemma expiry_checks_field fields c :
  In c (expiry_checks L now fields) -> field c = "expiryDate".
Proof. unfold expiry_checks. intros H. in_cases H. Qed.

Lemma issue_checks_field fields c :
  In c (issue_checks L now fields) -> field c = "issueDate".
Proof. unfold issue_checks. intros H. in_cases H. Qed.

Lemma name_checks_field fields app c :
  In c (name_checks fields app) -> field c = "name".
Proof. unfold name_checks. intros H. in_cases H. Qed.

Lemma dob_checks_field fields app c :
  In c (dob_checks L now fields app) -> field c = "dateOfBirth" \/ field c = "age".
Proof. unfold dob_checks. intros H. in_cases H. Qed.

Lemma number_checks_field fields app c :
  In c (number_checks fields app) -> field c = "documentNumber".
Proof. unfold number_checks. intros H. in_cases H. Qed.

Lemma nationality_checks_field fields app c :
  In c (nationality_checks fields app) -> field c = "nationality".
Proof. unfold nationality_checks. intros H. in_cases H. Qed.

Lemma mrz_checks_field fields c :
  In c (mrz_checks fields) -> field c = "mrzChecksum".
Proof. unfold mrz_checks. intros H. in_cases H. Qed.

Lemma type_checks_field fields c :
  In c (type_checks fields) -> field c = "documentType".
Proof. unfold type_checks. intros H. in_cases H. Qed.

Lemma confidence_checks_field fields c :
  In c (confidence_checks fields) -> field c = "confidence".
Proof. unfold confidence_checks. intros H. in_cases H. Qed.

(** The checks before the confidence check. *)
Lemma validateDocument_front fields app :
  validateDocument L now fields app =
  (expiry_checks L now fields ++ issue_checks L now fields ++ name_checks fields app
   ++ dob_checks L now fields app ++ number_checks fields app
   ++ nationality_checks fields app ++ mrz_checks fields ++ type_checks fields)
  ++ confidence_checks fields.
Proof. unfold validateDocument. now rewrite <- !app_assoc. Qed.

Lemma front_field fields app c :
  In c (expiry_checks L now fields ++ issue_checks L now fields ++ name_checks fields app
        ++ dob_checks L now fields app ++ number_checks fields app
        ++ nationality_checks fields app ++ mrz_checks fields ++ type_checks fields) ->
  In (field c)
     ["expiryDate"; "issueDate"; "name"; "dateOfBirth"; "age"; "documentNumber";
      "nationality"; "mrzChecksum"; "documentType"].
Proof.
  rewrite !in_app_iff. intros H.
  repeat match type of H with _ \/ _ => destruct H as [H|H] end.
  - rewrite (expiry_checks_field _ _ H). cbn; tauto.
  - rewrite (issue_checks_field _ _ H). cbn; tauto.
  - rewrite (name_checks_field _ _ _ H). cbn; tauto.
  - destruct (dob_checks_field _ _ _ H) as [E|E]; rewrite E; cbn; tauto.
  - rewrite (number_checks_field _ _ _ H). cbn; tauto.
  - rewrite (nationality_checks_field _ _ _ H). cbn; tauto.
  - rewrite (mrz_checks_field _ _ H). cbn; tauto.
  - rewrite (type_checks_field _ _ H). cbn; tauto.
Qed.

Lemma emitted_field fields app c :
  In c (validateDocument L now fields app) ->
  In (field c)
     ["expiryDate"; "issueDate"; "name"; "dateOfBirth"; "age"; "documentNumber";
      "nationality"; "mrzChecksum"; "documentType"; "confidence"].
Proof.
  rewrite validateDocument_front, in_app_iff. intros [H|H].
  - apply front_field in H. cbn in *. tauto.
  - rewrite (confidence_checks_field _ _ H). cbn; tauto.
Qed.

(** X3. Every check that [validateDocument] emits has its field name among
    the ten names [expiryDate], [issueDate], [name], [dateOfBirth], [age],
    [documentNumber], [nationality], [mrzChecksum], [documentType] and
    [confidence]. *)
Theorem validateDocument_vocabulary (fields : ExtractedFields) (app : ApplicantData)
  (c : ValidationCheck) :
  In c (validateDocument L now fields app) ->
  In (field c)
     ["expiryDate"; "issueDate"; "name"; "dateOfBirth"; "age"; "documentNumber";
      "nationality"; "mrzChecksum"; "documentType"; "confidence"].
Proof. apply emitted_field. Qed.

Lemma rule_lengths fields app :
  (List.length (expiry_checks L now fields) <= 2
   /\ List.length (issue_checks L now fields) <= 1
   /\ List.length (name_checks fields app) <= 1
   /\ List.length (dob_checks L now fields app) <= 2
   /\ List.length (number_checks fields app) <= 1
   /\ List.length (nationality_checks fields app) <= 1
   /\ List.length (mrz_checks fields) <= 1
   /\ List.length (type_checks fields) <= 1)%nat.
Proof.
  unfold expiry_checks, issue_checks, name_checks, dob_checks, number_checks,
    nationality_checks, mrz_checks, type_checks.
  cbv zeta. cbn [try_catch].
  repeat split;
    repeat match goal with
           | |- context [match ?x with _ => _ end] => destruct x
           end; cbn [List.length]; lia.
Qed.

Lemma low_confidence_none (fields : ExtractedFields) :
  filter (fun kv => Fields.low_confidence (snd kv)) fields = [] <->
  (forall k f, In (k, Some f) fields -> (60 <= confidence f)%Z).
Proof.
  induction fields as [|[k [f|]] fields IH]; cbn [filter snd Fields.low_confidence].
  - split; [intros _ k f [] | reflexivity].
  - destruct (confidence f <? 60)%Z eqn:E.
    + apply Z.ltb_lt in E. split; [discriminate|].
      intros H. specialize (H k f (or_introl eq_refl)). lia.
    + apply Z.ltb_ge in E. rewrite IH. split.
      * intros H k' f' [Heq|Hin]; [inversion Heq; subst; exact E | eauto].
      * intros H k' f' Hin. apply (H k' f'). now right.
  - rewrite IH. split.
    + intros H k' f' [Heq|Hin]; [discriminate | eauto].
    + intros H k' f' Hin. apply (H k' f'). now right.
Qed.

(** X4. [validateDocument] never returns an empty list: it ends with the one
    [confidence] check, preceded by at most ten checks none of which is on
    [confidence]; that last check passes exactly when every field present
    in the mapping has a confidence of at least 60. *)
Theorem validateDocument_ends_with_confidence (fields : ExtractedFields)
  (app : ApplicantData) :
  exists front last,
    validateDocument L now fields app = front ++ [last]
    /\ (List.length front <= 10)%nat
    /\ (forall c, In c front -> field c <> "confidence")
    /\ field last = "confidence"
    /\ (passed last = true <->
        forall k f, In (k, Some f) fields -> (60 <= confidence f)%Z).
Proof.
  rewrite validateDocument_front.
  set (front := _ ++ _ ++ _ ++ _ ++ _ ++ _ ++ _ ++ _).
  assert (Hlen : (List.length front <= 10)%nat).
  { unfold front. rewrite !length_app.
    pose proof (rule_lengths fields app). lia. }
  assert (Hfront : forall c, In c front -> field c <> "confidence").
  { intros c Hc. apply front_field in Hc. cbn in Hc.
    repeat destruct Hc as [Hc|Hc]; try contradiction; rewrite <- Hc; discriminate. }
  unfold confidence_checks, lowConfidenceFields. rewrite length_map.
  destruct (filter _ fields) as [|kv rest] eqn:Hlow.
  - eexists front, _. cbn [List.length Nat.ltb Nat.leb].
    repeat split; auto. intros _. now apply low_confidence_none.
  - eexists front, _. cbn [List.length Nat.ltb Nat.leb].
    repeat split; auto; cbn [passed]; [discriminate|].
    intros H. apply low_confidence_none in H. rewrite H in Hlow. discriminate.
Qed.

End ValidatorMore.

(** ** Case mapping and trimming *)

Section StringFacts.

Import JsString.
Open Scope string_scope.

Lemma upper_lower_char (c : ascii) : upper_units (lower_char c) = upper_units c.
Proof. destruct c as [[] [] [] [] [] [] [] []]; reflexivity. Qed.

Lemma lower_ascii_upper_char (c : ascii) :
  lower_char (if is_lower c then ascii_of_nat (code c - 32) else c) = lower_char c.
Proof. destruct c as [[] [] [] [] [] [] [] []]; reflexivity. Qed.

Lemma lower_lower_char (c : ascii) : lower_char (lower_char c) = lower_char c.
Proof. destruct c as [[] [] [] [] [] [] [] []]; reflexivity. Qed.

Lemma lower_char_not_upper (c : ascii) : is_upper (lower_char c) = false.
Proof. destruct c as [[] [] [] [] [] [] [] []]; reflexivity. Qed.

Lemma toUpperCase_toLowerCase (s : string) :
  toUpperCase (toLowerCase s) = toUpperCase s.
Proof.
  unfold toLowerCase.
  induction s as [|c s IH]; cbn [map_chars toUpperCase]; [reflexivity|].
  now rewrite IH, upper_lower_char.
Qed.

Lemma toLowerCase_asciiUpperCase (s : string) :
  toLowerCase (asciiUpperCase s) = toLowerCase s.
Proof.
  unfold asciiUpperCase, toLowerCase.
  induction s as [|c s IH]; cbn [map_chars]; [reflexivity|].
  now rewrite IH, lower_ascii_upper_char.
Qed.

Lemma toLowerCase_idempotent (s : string) :
  toLowerCase (toLowerCase s) = toLowerCase s.
Proof.
  unfold toLowerCase.
  induction s as [|c s IH]; cbn [map_chars]; [reflexivity|].
  now rewrite IH, lower_lower_char.
Qed.

Lemma toUpperCase_app (a b : string) :
  toUpperCase (a ++ b) = toUpperCase a ++ toUpperCase b.
Proof.
  induction a as [|c a IH]; cbn [append toUpperCase]; [reflexivity|].
  rewrite IH. unfold upper_units. destruct (code c =? 223)%nat; reflexivity.
Qed.

Lemma map_chars_app (f : ascii -> ascii) (a b : string) :
  map_chars f (a ++ b) = map_chars f a ++ map_chars f b.
Proof. induction a as [|c a IH]; cbn; [reflexivity | now rewrite IH]. Qed.

Lemma toLowerCase_no_upper (s : string) :
  forallb (fun c => negb (is_upper c)) (chars (toLowerCase s)) = true.
Proof.
  unfold toLowerCase, chars.
  induction s as [|c s IH]; cbn [map_chars list_ascii_of_string forallb];
    [reflexivity|].
  now rewrite lower_char_not_upper, IH.
Qed.

Lemma trimEnd_app_space (s : string) : trimEnd (s ++ " ") = trimEnd s.
Proof.
  induction s as [|c s IH]; [reflexivity|].
  cbn [append trimEnd]. now rewrite IH.
Qed.

Lemma trim_app_space (s : string) : trim (s ++ " ") = trim s.
Proof.
  unfold trim. induction s as [|c s IH]; [reflexivity|].
  cbn [append trimStart]. destruct (is_space c); [exact IH|].
  apply (trimEnd_app_space (String c s)).
Qed.

Lemma trim_padded (s : string) : trim (" " ++ s ++ " ") = trim s.
Proof.
  change (" " ++ s ++ " ") with (String " " (s ++ " ")).
  unfold trim at 1. cbn [trimStart]. change (is_space " ") with true. cbv iota.
  apply trim_app_space.
Qed.

Lemma includes_empty (hay : string) : includes hay "" = true.
Proof. destruct hay; reflexivity. Qed.

Lemma prefix_refl (s : string) : prefix s s = true.
Proof.
  induction s as [|c s IH]; [reflexivity|].
  cbn [prefix]. destruct (ascii_dec c c); [exact IH | congruence].
Qed.

Lemma includes_refl (s : string) : includes s s = true.
Proof. destruct s; cbn [includes]; now rewrite prefix_refl. Qed.

End StringFacts.

(** ** The comparison rules of the validator *)

Section ComparisonRules.

Import JsString JsDateOps Validator Similarity.
Open Scope string_scope.

Variable L : DateLib.
Variable now : Z.

Lemma present_value_of fields key v :
  Fields.present fields key = Some v ->
  Fields.value_of fields key = Some v /\ (v =? "") = false.
Proof.
  unfold Fields.present. destruct (Fields.value_of fields key) as [w|]; [|discriminate].
  destruct (w =? "") eqn:E; [discriminate|]. intros H. inversion H; subst. auto.
Qed.

Lemma present_truthy fields key v :
  Fields.present fields key = Some v -> truthy (Fields.value_of fields key) = true.
Proof.
  intros H. apply present_value_of in H as [-> E]. cbn. now rewrite E.
Qed.

(** X5. A present issue date yields exactly one check.  It passes when the
    date parses and lies strictly before now; a date that is now or later
    fails, and so does a date that does not parse, both with the message
    "Issue date is in the future": the "Invalid issue date format" check of
    the [catch] clause is never emitted. *)
Theorem issue_date_rule (fields : ExtractedFields) (v : string) :
  Fields.present fields "issueDate" = Some v ->
  (forall t, parseISO L v = Some t -> (t < now)%Z ->
             issue_checks L now fields
             = [mkCheck "issueDate" true ("Document issued on " ++ v)])
  /\ (forall t, parseISO L v = Some t -> (now <= t)%Z ->
                issue_checks L now fields
                = [mkCheck "issueDate" false "Issue date is in the future"])
  /\ (parseISO L v = None ->
      issue_checks L now fields
      = [mkCheck "issueDate" false "Issue date is in the future"]).
Proof.
  intros Hv. unfold issue_checks. rewrite Hv. cbv zeta. cbn [try_catch].
  repeat split.
  - intros t -> Ht. cbn [isBefore]. apply Z.ltb_lt in Ht. now rewrite Ht.
  - intros t -> Ht. cbn [isBefore]. apply Z.ltb_ge in Ht. now rewrite Ht.
  - intros ->. reflexivity.
Qed.

(** X6. A claimed name that is not empty but trims to nothing is contained
    in every string, so it passes the name check against whatever name the
    document shows. *)
Theorem blank_claimed_name_matches (fields : ExtractedFields) (app : ApplicantData)
  (claimed : string) :
  name app = Some claimed -> claimed <> "" -> trim claimed = "" ->
  (exists v, Fields.present fields "fullName" = Some v
             \/ Fields.present fields "firstName" = Some v) ->
  name_checks fields app = [mkCheck "name" true "Name matches application"].
Proof.
  intros Hn Hne Htrim (v & Hv). unfold name_checks. rewrite Hn.
  apply String.eqb_neq in Hne. rewrite Hne. cbn [negb andb].
  assert (Ht : truthy (Fields.value_of fields "fullName")
               || truthy (Fields.value_of fields "firstName") = true).
  { apply orb_true_iff. destruct Hv as [Hv|Hv]; [left | right];
      eapply present_truthy; eauto. }
  rewrite Ht. cbv zeta. rewrite Htrim.
  change (toLowerCase "") with "". now rewrite includes_empty.
Qed.

Lemma above_threshold (a b : string) :
  negb (Qle_bool (calculateSimilarity a b) (7 # 10)) = true <->
  Nat.max (String.length a) (String.length b) = 0%nat
  \/ (10 * levenshteinDistance a b
      < 3 * Nat.max (String.length a) (String.length b))%nat.
Proof.
  rewrite negb_true_iff, <- not_true_iff_false, Qle_bool_iff.
  rewrite calculateSimilarity_max. cbv zeta.
  pose proof (levenshtein_le_max a b) as Hle.
  destruct (Nat.max _ _ =? 0)%nat eqn:Hm.
  - apply Nat.eqb_eq in Hm. split; [auto|]. intros _. unfold Qle. cbn. lia.
  - apply Nat.eqb_neq in Hm. unfold Qle. cbn [Qnum Qden].
    rewrite pos_of_nat_Z by lia. lia.
Qed.

(** X7. With a full name on the document, the name check passes exactly when
    one of the two trimmed, lower-cased names contains the other or their
    edit distance is below three tenths of the longer length. *)
Theorem name_rule_outcome (fields : ExtractedFields) (app : ApplicantData)
  (claimed full : string) :
  name app = Some claimed -> claimed <> "" ->
  Fields.present fields "fullName" = Some full ->
  let e := toLowerCase (trim full) in
  let a := toLowerCase (trim claimed) in
  exists b msg,
    name_checks fields app = [mkCheck "name" b msg]
    /\ (b = true <->
        includes e a = true \/ includes a e = true
        \/ (10 * levenshteinDistance e a
            < 3 * Nat.max (String.length e) (String.length a))%nat).
Proof.
  intros Hn Hne Hfull. cbv zeta. unfold name_checks. rewrite Hn.
  apply String.eqb_neq in Hne. rewrite Hne.
  rewrite (present_truthy _ _ _ Hfull), Hfull. cbn [negb andb orb]. cbv zeta.
  eexists _, _. split; [reflexivity|].
  rewrite !orb_true_iff, above_threshold.
  set (e := toLowerCase (trim full)). set (a := toLowerCase (trim claimed)).
  split; [|tauto].
  intros [[H|H]|[H|H]]; auto.
  left. destruct e, a; cbn in H; try lia. reflexivity.
Qed.

End ComparisonRules.

Section ComparisonRuns.

Import JsString JsDateOps Validator Similarity.
Open Scope string_scope.

Lemma name_rule_outcome_witness :
  name_checks Sample.passport
    (mkApplicant (Some "Jon Doe") None None None None)
  = [mkCheck "name" true "Name matches application"].
Proof.
  destruct (name_rule_outcome Sample.passport
              (mkApplicant (Some "Jon Doe") None None None None)
              "Jon Doe" "John Doe" eq_refl ltac:(discriminate) eq_refl)
    as (b & msg & Heq & Hiff).
  vm_compute in Heq. inversion Heq; subst. reflexivity.
Defined.

Lemma blank_claimed_name_matches_witness :
  name_checks Sample.passport (mkApplicant (Some "  ") None None None None)
  = [mkCheck "name" true "Name matches application"].
Proof.
  apply (blank_claimed_name_matches Sample.passport
           (mkApplicant (Some "  ") None None None None) "  ");
    [reflexivity | discriminate | reflexivity |].
  exists "John Doe". left. reflexivity.
Defined.

Lemma issue_date_rule_witness :
  issue_checks UtcCalendar.lib UtcCalendar.sample_now
    [("issueDate", Some (mkField "01-02-2020" 90))]
  = [mkCheck "issueDate" false "Issue date is in the future"].
Proof.
  apply (issue_date_rule UtcCalendar.lib UtcCalendar.sample_now
           [("issueDate", Some (mkField "01-02-2020" 90))] "01-02-2020");
    reflexivity.
Defined.

End ComparisonRuns.

Section MatchingRules.

Import JsString Validator.
Open Scope string_scope.

Lemma padded_lower_upper (c : string) :
  trim (toUpperCase (" " ++ toLowerCase c ++ " ")) = trim (toUpperCase c).
Proof.
  rewrite !toUpperCase_app, toUpperCase_toLowerCase.
  change (toUpperCase " ") with " ".
  apply trim_padded.
Qed.

(** X8. The document-number and nationality checks do not see letter case or
    surrounding blanks: lower-casing the claimed value and putting a blank on
    each side of it leaves the outcome of the check unchanged, whatever the
    document shows. *)
Theorem matching_ignores_case_and_padding (fields : ExtractedFields)
  (app app' : ApplicantData) :
  (forall c, passportNumber app = Some c -> c <> "" ->
             passportNumber app' = Some (" " ++ toLowerCase c ++ " ") ->
             map passed (number_checks fields app')
             = map passed (number_checks fields app))
  /\ (forall c, nationality app = Some c -> c <> "" ->
                nationality app' = Some (" " ++ toLowerCase c ++ " ") ->
                map passed (nationality_checks fields app')
                = map passed (nationality_checks fields app)).
Proof.
  split; intros c Hc Hne Hc'; apply String.eqb_neq in Hne.
  - unfold number_checks. rewrite Hc, Hc'.
    destruct (Fields.present fields "documentNumber") as [v|]; [|reflexivity].
    rewrite Hne. cbn [append String.eqb]. cbv zeta. cbn [map passed].
    change (String " " (toLowerCase c ++ " ")) with (" " ++ toLowerCase c ++ " ").
    now rewrite padded_lower_upper.
  - unfold nationality_checks. rewrite Hc, Hc'.
    destruct (Fields.present fields "nationality") as [v|]; [|reflexivity].
    rewrite Hne. cbn [append String.eqb]. cbv zeta. cbn [map passed].
    change (String " " (toLowerCase c ++ " ")) with (" " ++ toLowerCase c ++ " ").
    now rewrite padded_lower_upper.
Qed.

Lemma matching_ignores_case_and_padding_witness :
  map passed (nationality_checks Sample.passport
                (mkApplicant None None None (Some " usa ") None))
  = map passed (nationality_checks Sample.passport Sample.traveller)
  /\ map passed (nationality_checks Sample.passport Sample.traveller) = [true].
Proof.
  split; [|reflexivity].
  apply (proj2 (matching_ignores_case_and_padding Sample.passport Sample.traveller
                  (mkApplicant None None None (Some " usa ") None)) "USA");
    [reflexivity | discriminate | reflexivity].
Defined.

Lemma lower_case_differs (s t : string) :
  forallb (fun c => negb (is_upper c)) (chars t) = false ->
  (toLowerCase s =? t) = false.
Proof.
  intros Ht. apply String.eqb_neq. intros E.
  rewrite <- E, toLowerCase_no_upper in Ht. discriminate.
Qed.

(** X9. A present document type yields one check, which passes exactly when
    the lower-cased value is [passport], [visa], [nationalid] or
    [drivinglicense]; the entries [nationalId] and [drivingLicense] of the
    list of valid types can never be the ones that match. *)
Theorem document_type_rule (fields : ExtractedFields) (v : string) :
  Fields.present fields "documentType" = Some v ->
  exists b msg,
    type_checks fields = [mkCheck "documentType" b msg]
    /\ (b = true <->
        In (toLowerCase v) ["passport"; "visa"; "nationalid"; "drivinglicense"])
    /\ (toLowerCase v =? "nationalId") = false
    /\ (toLowerCase v =? "drivingLicense") = false.
Proof.
  intros Hv. unfold type_checks. rewrite Hv. cbv zeta.
  assert (H1 : (toLowerCase v =? "nationalId") = false)
    by (apply lower_case_differs; reflexivity).
  assert (H2 : (toLowerCase v =? "drivingLicense") = false)
    by (apply lower_case_differs; reflexivity).
  eexists _, _. split; [reflexivity|]. split; [|auto].
  unfold mem, validTypes. cbn [existsb In].
  rewrite H1, H2, !orb_true_iff, !String.eqb_eq.
  intuition (try discriminate; auto).
Qed.

Lemma document_type_rule_witness :
  exists b msg,
    type_checks [("documentType", Some (mkField "NationalID" 90))]
    = [mkCheck "documentType" b msg]
    /\ (b = true <->
        In "nationalid" ["passport"; "visa"; "nationalid"; "drivinglicense"])
    /\ ("nationalid" =? "nationalId") = false
    /\ ("nationalid" =? "drivingLicense") = false.
Proof.
  apply (document_type_rule [("documentType", Some (mkField "NationalID" 90))]
           "NationalID").
  reflexivity.
Defined.

End MatchingRules.

(** ** Policy selection *)

Section PolicyFacts.

Import JsString Policy Eligibility.
Open Scope string_scope.

Lemma own_in_table (key : string) (p : EligibilityPolicy) :
  own eligibilityPolicies key = Some p ->
  In p [tourist; business; student; work; transit] /\ Policy.visaType p = key.
Proof.
  unfold eligibilityPolicies. cbn [own].
  repeat match goal with
         | |- context [if ?k =? key then _ else _] =>
             destruct (k =? key) eqn:?
         end; intros H; inversion H; subst;
    match goal with
    | E : (_ =? key) = true |- _ => apply String.eqb_eq in E; subst
    end; cbn; tauto.
Qed.

Lemma select_own (requested : string) (p : EligibilityPolicy) :
  select requested = Own p ->
  In p [tourist; business; student; work; transit].
Proof.
  unfold select, lookup.
  destruct (own eligibilityPolicies (toLowerCase requested)) as [q|] eqn:E.
  - intros H. inversion H; subst. now apply own_in_table in E.
  - destruct (mem _ prototype_members); [discriminate|].
    intros H. inversion H; subst. cbn; tauto.
Qed.

Lemma own_policy_shape (p : EligibilityPolicy) :
  In p [tourist; business; student; work; transit] ->
  requiresValidPassport p = true
  /\ allowedNationalities p = None /\ deniedNationalities p = None
  /\ (16 <= minAge p <= 21)%Z /\ (3 <= minPassportValidity p <= 12)%Z.
Proof.
  cbn [In]. intros H.
  repeat destruct H as [H|H]; try contradiction; subst; cbn; repeat split; lia.
Qed.

(** X10. Policy selection ignores the case of ASCII letters: a request
    selects the same policy as its form with the ASCII letters upper-cased,
    and as its lower-cased form. *)
Theorem select_ignores_case (requested : string) :
  select (asciiUpperCase requested) = select requested
  /\ select (toLowerCase requested) = select requested.
Proof.
  unfold select.
  now rewrite toLowerCase_asciiUpperCase, toLowerCase_idempotent.
Qed.

(** The same does not hold of [toUpperCase], which turns U+00DF into
    ["SS"]: ["busine"] followed by U+00DF is assessed as a tourist request
    and its upper-case form as a business request. *)
Lemma select_sees_sharp_s :
  let request := "busine" ++ String "223"%char "" in
  toUpperCase request = "BUSINESS"
  /\ select (toUpperCase request) = Own business
  /\ select request = Own tourist.
Proof. repeat split. Qed.

(** X11. A requested visa type that, lower-cased, is neither a key of the
    table nor the name of a member of [Object.prototype] is assessed under
    the tourist policy. *)
Theorem unknown_visa_type_is_tourist (requested : string) :
  ~ In (toLowerCase requested)
       ["tourist"; "business"; "student"; "work"; "transit"] ->
  ~ In (toLowerCase requested) prototype_members ->
  select requested = Own tourist.
Proof.
  intros Hkeys Hproto. unfold select, lookup.
  destruct (own eligibilityPolicies (toLowerCase requested)) as [q|] eqn:E.
  - exfalso. apply Hkeys. apply own_in_table in E as [Hin Hkey].
    rewrite <- Hkey. cbn [In] in *.
    repeat destruct Hin as [Hin|Hin]; try contradiction; subst; cbn; tauto.
  - destruct (mem (toLowerCase requested) prototype_members) eqn:M; [|reflexivity].
    exfalso. apply Hproto. unfold mem in M.
    apply existsb_exists in M as (x & Hx & Heq).
    apply String.eqb_eq in Heq. now subst.
Qed.

Lemma unknown_visa_type_is_tourist_witness :
  select "Diplomatic" = Own tourist.
Proof.
  apply (unknown_visa_type_is_tourist "Diplomatic"); cbn;
    intros H; repeat destruct H as [H|H]; try discriminate H; exact H.
Defined.

(** X12. The nationality lists are unset in every policy that can be
    selected, so no request is rejected on nationality, whatever nationality
    the document shows. *)
Theorem nationality_never_rejects (fields : ExtractedFields) (requested : string) :
  allowed_rule fields requested (select requested) = None
  /\ denied_rule fields requested (select requested) = None.
Proof.
  unfold allowed_rule, denied_rule.
  destruct (select requested) as [p|] eqn:E; [|split; reflexivity].
  apply select_own, own_policy_shape in E as (_ & Ha & Hd & _).
  cbn [slot_allowedNationalities slot_deniedNationalities]. rewrite Ha, Hd.
  split; reflexivity.
Qed.

End PolicyFacts.

(** ** What an acceptance and a rejection mean *)

Section EligibilityMore.

Import JsString JsDateOps Policy Eligibility Shape.
Open Scope string_scope.

Variable L : DateLib.
Variable now : Z.

Ltac split_matches :=
  repeat match goal with
         | H : Ok _ = Ok _ |- _ => inversion H; subst; clear H
         | H : Some _ = Some _ |- _ => inversion H; subst; clear H
         | H : _ = _ |- _ => discriminate H
         | H : context [match ?x with _ => _ end] |- _ => destruct x eqn:?
         end.

Lemma shape_of_reject requested c rest :
  c <> "U"%char -> rejection_shape (reject requested (String c rest)).
Proof. intros Hc. split; [reflexivity|]. exists c, rest. auto. Qed.

Lemma critical_rule_shape requested policy checks r :
  critical_rule requested policy checks = Some r -> rejection_shape r.
Proof.
  unfold critical_rule. intros H. split_matches.
  apply shape_of_reject. discriminate.
Qed.

Lemma age_rule_shape fields requested policy r :
  age_rule L now fields requested policy = Some r -> rejection_shape r.
Proof.
  unfold age_rule, try_catch. intros H. split_matches;
    apply shape_of_reject; discriminate.
Qed.

Lemma validity_rule_shape fields requested policy r :
  validity_rule L now fields requested policy = Some r -> rejection_shape r.
Proof.
  unfold validity_rule, try_catch. intros H. split_matches;
    apply shape_of_reject; discriminate.
Qed.

Lemma allowed_rule_shape fields requested policy r :
  allowed_rule fields requested policy = Some r -> rejection_shape r.
Proof.
  unfold allowed_rule. intros H. split_matches. apply shape_of_reject. discriminate.
Qed.

Lemma denied_rule_shape fields requested policy r :
  denied_rule fields requested policy = Some r -> rejection_shape r.
Proof.
  unfold denied_rule. intros H. split_matches. apply shape_of_reject. discriminate.
Qed.

Lemma quality_rule_shape fields requested r :
  quality_rule fields requested = Some r -> rejection_shape r.
Proof.
  unfold quality_rule. intros H. split_matches. apply shape_of_reject. discriminate.
Qed.

Lemma pass_rate_rule_shape requested checks r :
  pass_rate_rule requested checks = Some r -> rejection_shape r.
Proof.
  unfold pass_rate_rule. cbv zeta. intros H.
  destruct (q_lt _ _); [|discriminate]. inversion H; subst.
  apply shape_of_reject. discriminate.
Qed.

(** The outcome is the acceptance when no rule rejects, and the rejection of
    the first rule that does. *)
Lemma assess_cases fields requested policy checks :
  (critical_rule requested policy checks = None
   /\ age_rule L now fields requested policy = None
   /\ validity_rule L now fields requested policy = None
   /\ allowed_rule fields requested policy = None
   /\ denied_rule fields requested policy = None
   /\ quality_rule fields requested = None
   /\ pass_rate_rule requested checks = None
   /\ assess L now fields requested policy checks = accept requested)
  \/ rejection_shape (assess L now fields requested policy checks).
Proof.
  unfold assess. cbn [first_rejection].
  destruct (critical_rule _ _ _) eqn:H1; [right; eauto using critical_rule_shape|].
  destruct (age_rule _ _ _ _ _) eqn:H2; [right; eauto using age_rule_shape|].
  destruct (validity_rule _ _ _ _ _) eqn:H3; [right; eauto using validity_rule_shape|].
  destruct (allowed_rule _ _ _) eqn:H4; [right; eauto using allowed_rule_shape|].
  destruct (denied_rule _ _ _) eqn:H5; [right; eauto using denied_rule_shape|].
  destruct (quality_rule _ _) eqn:H6; [right; eauto using quality_rule_shape|].
  destruct (pass_rate_rule _ _) eqn:H7; [right; eauto using pass_rate_rule_shape|].
  left. repeat split; reflexivity.
Qed.

(** X13. The reason of an assessment is never empty, and it never is one of
    the two "Unable to verify ..." messages of the [catch] clauses: those
    clauses guard calls that do not throw. *)
Theorem reason_is_populated (fields : ExtractedFields) (app : ApplicantData)
  (checks : list ValidationCheck) :
  let r := assessEligibility L now fields app checks in
  reason r <> ""
  /\ reason r <> "Unable to verify age - invalid date of birth"
  /\ reason r <> "Unable to verify passport validity period".
Proof.
  cbv zeta. unfold assessEligibility. cbv zeta.
  destruct (assess_cases fields (or_else (intendedVisaType app) "tourist")
              (select (or_else (intendedVisaType app) "tourist")) checks)
    as [(_ & _ & _ & _ & _ & _ & _ & ->) | (_ & c & rest & -> & Hc)].
  - cbn. repeat split; discriminate.
  - repeat split; intros H; inversion H; subst; now apply Hc.
Qed.

Lemma ratio_not_below (passedCount total : nat) :
  q_lt (ratio passedCount total) (7 # 10) = false ->
  (7 * total <= 10 * passedCount)%nat.
Proof.
  unfold ratio, q_lt. destruct (total =? 0)%nat eqn:E.
  - apply Nat.eqb_eq in E. lia.
  - apply Nat.eqb_neq in E. rewrite negb_false_iff, Qle_bool_iff.
    unfold Qle. cbn [Qnum Qden]. rewrite pos_of_nat_Z by lia. lia.
Qed.

(** X14. An acceptance under a policy of the table means that every rule
    held: no check on a critical field failed; a date of birth that parses
    gives an age within the bounds of the policy; an expiry date that parses
    is not before now plus the validity window of the policy; at most three
    fields have a confidence below 60; and at least seven tenths of the
    checks passed. *)
Theorem acceptance_is_sound (fields : ExtractedFields) (app : ApplicantData)
  (checks : list ValidationCheck) (p : EligibilityPolicy) :
  select (or_else (intendedVisaType app) "tourist") = Own p ->
  eligible (assessEligibility L now fields app checks) = true ->
  (forall c, In c checks -> In (field c) criticalFields -> passed c = true)
  /\ (forall v t, Fields.present fields "dateOfBirth" = Some v ->
                  parseISO L v = Some t ->
                  (minAge p <= yearsBetween L now t)%Z
                  /\ (forall m, maxAge p = Some m -> m <> 0%Z ->
                                (yearsBetween L now t <= m)%Z))
  /\ (forall v t, Fields.present fields "expiryDate" = Some v ->
                  parseISO L v = Some t ->
                  (plusMonths L now (minPassportValidity p) <= t)%Z)
  /\ (lowConfidenceCount fields <= 3)%nat
  /\ (7 * List.length checks <= 10 * List.length (filter passed checks))%nat.
Proof.
  intros Hsel Helig. unfold assessEligibility in Helig. cbv zeta in Helig.
  pose proof (own_policy_shape p (select_own _ _ Hsel)) as (Hreq & _).
  rewrite Hsel in Helig.
  destruct (assess_cases fields (or_else (intendedVisaType app) "tourist")
              (Own p) checks)
    as [(H1 & H2 & H3 & _ & _ & H6 & H7 & _) | (Hno & _)];
    [|rewrite Hno in Helig; discriminate].
  repeat split.
  - intros c Hin Hcrit. unfold critical_rule in H1.
    cbn [slot_requiresValidPassport] in H1. rewrite Hreq in H1. cbn [andb] in H1.
    destruct (criticalFailures checks) as [|c0 rest] eqn:Hf; [|discriminate].
    destruct (passed c) eqn:Hp; [reflexivity|]. exfalso.
    assert (Hc : In c (criticalFailures checks)).
    { unfold criticalFailures, criticalChecks. rewrite !filter_In.
      repeat split; auto.
      - unfold mem. apply existsb_exists. exists (field c).
        split; [exact Hcrit | apply String.eqb_refl].
      - now rewrite Hp. }
    rewrite Hf in Hc. contradiction.
  - unfold age_rule in H2. rewrite H in H2. cbv zeta in H2. rewrite H0 in H2.
    cbn [try_catch differenceInYears slot_minAge num_lt] in H2.
    destruct (yearsBetween L now t <? minAge p)%Z eqn:E; [discriminate|].
    now apply Z.ltb_ge in E.
  - intros m Hm Hnz. unfold age_rule in H2. rewrite H in H2. cbv zeta in H2.
    rewrite H0 in H2.
    cbn [try_catch differenceInYears slot_minAge slot_maxAge num_lt] in H2.
    rewrite Hm in H2.
    destruct (yearsBetween L now t <? minAge p)%Z; [discriminate|].
    apply Z.eqb_neq in Hnz. rewrite Hnz in H2. cbn [negb andb] in H2.
    destruct (m <? yearsBetween L now t)%Z eqn:E; [discriminate|].
    now apply Z.ltb_ge in E.
  - intros v t Hv Ht. unfold validity_rule in H3. rewrite Hv in H3.
    cbv zeta in H3. rewrite Ht in H3.
    cbn [try_catch addMonths slot_minPassportValidity isBefore] in H3.
    destruct (t <? plusMonths L now (minPassportValidity p))%Z eqn:E;
      [discriminate|].
    now apply Z.ltb_ge in E.
  - unfold quality_rule in H6.
    destruct (3 <? lowConfidenceCount fields)%nat eqn:E; [discriminate|].
    now apply Nat.ltb_ge in E.
  - unfold pass_rate_rule in H7. cbv zeta in H7.
    destruct (q_lt (passRate checks) (7 # 10)) eqn:E; [discriminate|].
    now apply ratio_not_below in E.
Qed.

End EligibilityMore.

(** ** Rejections end to end *)

Section Rejections.

Import JsString JsDateOps Policy Eligibility Validator.
Open Scope string_scope.

Variable L : DateLib.
Variable now : Z.

(** X15. A rejection on age, or on the validity window, is only ever issued
    for a date that [parseISO] can read: an unreadable date of birth or
    expiry date passes the rule. *)
Theorem date_rules_reject_only_parsed_dates (fields : ExtractedFields)
  (requested : string) (policy : Slot) (r : EligibilityResult) :
  (age_rule L now fields requested policy = Some r ->
   exists v t, Fields.present fields "dateOfBirth" = Some v
               /\ parseISO L v = Some t)
  /\ (validity_rule L now fields requested policy = Some r ->
      exists v t, Fields.present fields "expiryDate" = Some v
                  /\ parseISO L v = Some t).
Proof.
  split.
  - unfold age_rule.
    destruct (Fields.present fields "dateOfBirth") as [v|]; [|discriminate].
    cbv zeta. destruct (parseISO L v) as [t|] eqn:Ht; [intros _; eauto|].
    destruct (slot_maxAge policy) as [m|];
      cbn [try_catch differenceInYears num_lt]; rewrite ?andb_false_r;
      cbn [try_catch]; discriminate.
  - unfold validity_rule.
    destruct (Fields.present fields "expiryDate") as [v|]; [|discriminate].
    cbv zeta. destruct (parseISO L v) as [t|] eqn:Ht; [intros _; eauto|].
    discriminate.
Qed.

(** X16. Under a policy of the table, when no critical check failed, a date
    of birth that parses to an age below the minimum age of the policy is
    rejected with the message that names the age, the minimum and the
    requested visa type. *)
Theorem under_age_is_rejected (fields : ExtractedFields) (app : ApplicantData)
  (checks : list ValidationCheck) (p : EligibilityPolicy) (v : string) (t : Z) :
  let requested := or_else (intendedVisaType app) "tourist" in
  select requested = Own p ->
  criticalFailures checks = [] ->
  Fields.present fields "dateOfBirth" = Some v ->
  parseISO L v = Some t ->
  (yearsBetween L now t < minAge p)%Z ->
  assessEligibility L now fields app checks =
  mkResult false
    ("Applicant age (" ++ of_Z (yearsBetween L now t)
     ++ ") is below minimum age requirement (" ++ of_Z (minAge p) ++ ") for "
     ++ requested ++ " visa")
    (Some requested).
Proof.
  cbv zeta. intros Hsel Hcrit Hv Ht Hage.
  unfold assessEligibility, assess. cbv zeta. rewrite Hsel.
  unfold critical_rule. rewrite Hcrit. cbn [List.length Nat.ltb Nat.leb].
  rewrite andb_false_r. cbn [first_rejection].
  unfold age_rule. rewrite Hv. cbv zeta. rewrite Ht.
  cbn [try_catch differenceInYears slot_minAge num_lt].
  apply Z.ltb_lt in Hage. rewrite Hage. reflexivity.
Qed.

Lemma prefix_append (p s : string) : prefix p (p ++ s) = true.
Proof.
  induction p as [|c p IH]; [destruct s; reflexivity|].
  cbn [append prefix]. destruct (ascii_dec c c); [exact IH | congruence].
Qed.

Lemma critical_rule_fires fields requested policy checks c :
  slot_requiresValidPassport policy = true ->
  In c checks -> passed c = false -> In (field c) criticalFields ->
  eligible (assess L now fields requested policy checks) = false
  /\ prefix "Critical validation failures: "
       (reason (assess L now fields requested policy checks)) = true.
Proof.
  intros Hreq Hin Hfail Hcrit. unfold assess, critical_rule. rewrite Hreq.
  assert (Hc : In c (criticalFailures checks)).
  { unfold criticalFailures, criticalChecks. rewrite !filter_In.
    repeat split; auto.
    - unfold mem. apply existsb_exists. exists (field c).
      split; [exact Hcrit | apply String.eqb_refl].
    - now rewrite Hfail. }
  destruct (criticalFailures checks) as [|c0 rest]; [contradiction|].
  cbn [List.length Nat.ltb Nat.leb andb first_rejection].
  split; [reflexivity|]. unfold reject. cbn [reason]. apply prefix_append.
Qed.

Lemma in_validateDocument fields app c :
  In c (expiry_checks L now fields) \/ In c (dob_checks L now fields app)
  \/ In c (number_checks fields app) ->
  In c (validateDocument L now fields app).
Proof. unfold validateDocument. rewrite !in_app_iff. tauto. Qed.

(** X17. Under a policy of the table, a claimed date of birth or passport
    number that differs from the one on the document makes the applicant
    ineligible, with a reason that starts "Critical validation failures: ",
    whatever else the document shows. *)
Theorem mismatch_is_ineligible (fields : ExtractedFields) (app : ApplicantData)
  (p : EligibilityPolicy) (claimed v : string) :
  select (or_else (intendedVisaType app) "tourist") = Own p ->
  claimed <> "" ->
  (dateOfBirth app = Some claimed
   /\ Fields.present fields "dateOfBirth" = Some v /\ claimed <> v)
  \/ (passportNumber app = Some claimed
      /\ Fields.present fields "documentNumber" = Some v
      /\ trim (toUpperCase claimed) <> trim (toUpperCase v)) ->
  let r := assessEligibility L now fields app (validateDocument L now fields app) in
  eligible r = false
  /\ prefix "Critical validation failures: " (reason r) = true.
Proof.
  intros Hsel Hne Hcase. cbv zeta. unfold assessEligibility. cbv zeta.
  rewrite Hsel.
  pose proof (own_policy_shape p (select_own _ _ Hsel)) as (Hreq & _).
  apply String.eqb_neq in Hne.
  destruct Hcase as [(Hc & Hv & Hdiff) | (Hc & Hv & Hdiff)];
    apply String.eqb_neq in Hdiff.
  - eapply (critical_rule_fires fields _ (Own p) _
              (mkCheck "dateOfBirth" false _)); [exact Hreq | | reflexivity | cbn; tauto].
    apply in_validateDocument. right; left.
    unfold dob_checks. rewrite Hc, Hv, Hne. cbv zeta. rewrite Hdiff.
    left. reflexivity.
  - eapply (critical_rule_fires fields _ (Own p) _
              (mkCheck "documentNumber" false _)); [exact Hreq | | reflexivity | cbn; tauto].
    apply in_validateDocument. right; right.
    unfold number_checks. rewrite Hc, Hv, Hne. cbv zeta. rewrite Hdiff.
    left. reflexivity.
Qed.

(** X18. Under a policy of the table, a document whose expiry date parses to
    an instant before now makes the applicant ineligible, with a reason that
    starts "Critical validation failures: ". *)
Theorem expired_is_ineligible (fields : ExtractedFields) (app : ApplicantData)
  (p : EligibilityPolicy) (v : string) (t : Z) :
  select (or_else (intendedVisaType app) "tourist") = Own p ->
  Fields.present fields "expiryDate" = Some v ->
  parseISO L v = Some t -> (t < now)%Z ->
  let r := assessEligibility L now fields app (validateDocument L now fields app) in
  eligible r = false
  /\ prefix "Critical validation failures: " (reason r) = true.
Proof.
  intros Hsel Hv Ht Hlt. cbv zeta. unfold assessEligibility. cbv zeta.
  rewrite Hsel.
  pose proof (own_policy_shape p (select_own _ _ Hsel)) as (Hreq & _).
  eapply (critical_rule_fires fields _ (Own p) _
            (mkCheck "expiryDate" false _)); [exact Hreq | | reflexivity | cbn; tauto].
  apply in_validateDocument. left.
  unfold expiry_checks. rewrite Hv. cbv zeta. rewrite Ht.
  cbn [try_catch isBefore]. apply Z.ltb_lt in Hlt. rewrite Hlt.
  left. reflexivity.
Qed.

Lemma low_confidence_counts (fields : ExtractedFields) :
  lowConfidenceCount fields = List.length (lowConfidenceFields fields).
Proof.
  unfold lowConfidenceCount, lowConfidenceFields, Fields.values.
  rewrite length_map.
  induction fields as [|[k f] fields IH]; [reflexivity|].
  cbn [map filter snd]. destruct (Fields.low_confidence f); cbn [List.length];
    now rewrite IH.
Qed.

(** X19. The eligibility engine counts the very fields the validator lists as
    low in confidence; so whenever the engine rejects for insufficient
    document quality, the validator's [confidence] check has failed too. *)
Theorem quality_rejection_agrees_with_validator (fields : ExtractedFields)
  (app : ApplicantData) (requested : string) :
  lowConfidenceCount fields = List.length (lowConfidenceFields fields)
  /\ (quality_rule fields requested <> None ->
      exists msg, In (mkCheck "confidence" false msg)
                     (validateDocument L now fields app)).
Proof.
  split; [apply low_confidence_counts|].
  unfold quality_rule. rewrite low_confidence_counts.
  destruct (3 <? List.length (lowConfidenceFields fields))%nat eqn:E;
    [|congruence].
  intros _. apply Nat.ltb_lt in E.
  unfold validateDocument, confidence_checks. eexists.
  rewrite !in_app_iff. do 8 right.
  destruct (0 <? List.length (lowConfidenceFields fields))%nat eqn:E0.
  - left. reflexivity.
  - apply Nat.ltb_ge in E0. lia.
Qed.

End Rejections.

Section RejectionRuns.

Import JsString JsDateOps Policy Eligibility Validator.
Open Scope string_scope.

Lemma acceptance_is_sound_witness :
  let checks := validateDocument UtcCalendar.lib UtcCalendar.sample_now
                  Sample.passport Sample.traveller in
  eligible (assessEligibility UtcCalendar.lib UtcCalendar.sample_now
              Sample.passport Sample.traveller checks) = true
  /\ (lowConfidenceCount Sample.passport <= 3)%nat
  /\ (7 * List.length checks <= 10 * List.length (filter passed checks))%nat.
Proof.
  cbv zeta. split; [vm_compute; reflexivity|].
  apply (acceptance_is_sound UtcCalendar.lib UtcCalendar.sample_now
           Sample.passport Sample.traveller _ tourist);
    [reflexivity | vm_compute; reflexivity].
Defined.

Lemma under_age_is_rejected_witness :
  assessEligibility UtcCalendar.lib UtcCalendar.sample_now Cases.minor_passport
    Cases.minor
    (validateDocument UtcCalendar.lib UtcCalendar.sample_now Cases.minor_passport
       Cases.minor)
  = mkResult false
      "Applicant age (17) is below minimum age requirement (18) for tourist visa"
      (Some "tourist").
Proof.
  apply (under_age_is_rejected UtcCalendar.lib UtcCalendar.sample_now
           Cases.minor_passport Cases.minor _ tourist "2009-06-01"
           (UtcCalendar.days_from_civil 2009 6 1 * UtcCalendar.msPerDay));
    vm_compute; reflexivity.
Defined.

Lemma date_rules_reject_only_parsed_dates_witness :
  exists v t, Fields.present Cases.minor_passport "dateOfBirth" = Some v
              /\ parseISO UtcCalendar.lib v = Some t.
Proof.
  eapply (proj1 (date_rules_reject_only_parsed_dates UtcCalendar.lib
                   UtcCalendar.sample_now Cases.minor_passport "tourist"
                   (Own tourist) _)).
  vm_compute. reflexivity.
Defined.

Lemma mismatch_is_ineligible_witness :
  let r := assessEligibility UtcCalendar.lib UtcCalendar.sample_now Sample.passport
             Cases.other_birth
             (validateDocument UtcCalendar.lib UtcCalendar.sample_now
                Sample.passport Cases.other_birth) in
  eligible r = false
  /\ prefix "Critical validation failures: " (reason r) = true.
Proof.
  apply (mismatch_is_ineligible UtcCalendar.lib UtcCalendar.sample_now
           Sample.passport Cases.other_birth tourist "1985-05-05" "1990-01-15");
    [reflexivity | discriminate |].
  left. repeat split; discriminate.
Defined.

Lemma expired_is_ineligible_witness :
  let r := assessEligibility UtcCalendar.lib UtcCalendar.sample_now
             Cases.expired_passport Sample.traveller
             (validateDocument UtcCalendar.lib UtcCalendar.sample_now
                Cases.expired_passport Sample.traveller) in
  eligible r = false
  /\ prefix "Critical validation failures: " (reason r) = true.
Proof.
  apply (expired_is_ineligible UtcCalendar.lib UtcCalendar.sample_now
           Cases.expired_passport Sample.traveller tourist "2020-12-31"
           (UtcCalendar.days_from_civil 2020 12 31 * UtcCalendar.msPerDay));
    vm_compute; reflexivity.
Defined.

Lemma quality_rejection_agrees_with_validator_witness :
  quality_rule Cases.blurred "tourist" <> None
  /\ exists msg, In (mkCheck "confidence" false msg)
                    (validateDocument UtcCalendar.lib UtcCalendar.sample_now
                       Cases.blurred Sample.nobody).
Proof.
  assert (H : quality_rule Cases.blurred "tourist" <> None)
    by (vm_compute; discriminate).
  split; [exact H|].
  apply (proj2 (quality_rejection_agrees_with_validator UtcCalendar.lib
                  UtcCalendar.sample_now Cases.blurred Sample.nobody "tourist")).
  exact H.
Defined.

End RejectionRuns.

(** ** The aggregate score *)

Section ScoreFacts.

Import JsString Eligibility Aggregator.
Open Scope string_scope.

Lemma total_perm (xs ys : list Z) :
  Permutation xs ys -> Spec.total xs = Spec.total ys.
Proof.
  unfold Spec.total. induction 1; cbn [fold_right]; lia.
Qed.

Lemma filter_perm {A : Type} (f : A -> bool) (xs ys : list A) :
  Permutation xs ys -> Permutation (filter f xs) (filter f ys).
Proof.
  induction 1; cbn [filter].
  - constructor.
  - destruct (f x); [now constructor | assumption].
  - destruct (f x), (f y); try (now repeat constructor); apply Permutation_refl.
  - eapply Permutation_trans; eassumption.
Qed.

Lemma fieldConfidences_perm (fields fields' : ExtractedFields) :
  Permutation fields fields' ->
  Permutation (fieldConfidences fields) (fieldConfidences fields').
Proof.
  intros H. unfold fieldConfidences, Fields.values.
  now apply filter_perm, Permutation_map, Permutation_map.
Qed.

Lemma avgFieldConfidence_perm (fields fields' : ExtractedFields) :
  Permutation fields fields' ->
  avgFieldConfidence fields = avgFieldConfidence fields'.
Proof.
  intros H. apply fieldConfidences_perm in H.
  unfold avgFieldConfidence, sum. cbv zeta.
  rewrite !fold_left_add, (total_perm _ _ H), (Permutation_length H).
  reflexivity.
Qed.

Lemma validationScore_perm (checks checks' : list ValidationCheck) :
  Permutation checks checks' ->
  validationScore checks = validationScore checks'.
Proof.
  intros H. unfold validationScore. cbv zeta.
  now rewrite (Permutation_length H), (Permutation_length (filter_perm passed _ _ H)).
Qed.

(** X20. The overall confidence does not depend on the order of the fields
    or of the checks; and a field with confidence 0, or a key that holds no
    field, can be added to the mapping without changing it. *)
Theorem overall_confidence_invariance (fields fields' : ExtractedFields)
  (checks checks' : list ValidationCheck) (k v : string) :
  (Permutation fields fields' -> Permutation checks checks' ->
   calculateOverallConfidence fields checks
   = calculateOverallConfidence fields' checks')
  /\ calculateOverallConfidence ((k, Some (mkField v 0)) :: fields) checks
     = calculateOverallConfidence fields checks
  /\ calculateOverallConfidence ((k, None) :: fields) checks
     = calculateOverallConfidence fields checks.
Proof.
  repeat split.
  intros Hf Hc. unfold calculateOverallConfidence. cbv zeta.
  now rewrite (avgFieldConfidence_perm _ _ Hf), (validationScore_perm _ _ Hc).
Qed.

Lemma overall_confidence_invariance_witness :
  calculateOverallConfidence (rev Sample.passport) (rev Sample.two_failures)
  = calculateOverallConfidence Sample.passport Sample.two_failures.
Proof.
  symmetry.
  apply (proj1 (overall_confidence_invariance Sample.passport (rev Sample.passport)
                  Sample.two_failures (rev Sample.two_failures) "" ""));
    apply Permutation_rev.
Defined.

End ScoreFacts.

(** ** Recommendations and summary *)

Section ReportFacts.

Import JsString Eligibility Aggregator Verifier Shape.
Open Scope string_scope.

Variable L : DateLib.
Variable now : Z.

Lemma all_passed_iff (checks : list ValidationCheck) :
  List.length (filter (fun c => negb (passed c)) checks) = 0%nat
  <-> forallb passed checks = true.
Proof.
  induction checks as [|c checks IH]; [cbn; tauto|].
  cbn [filter forallb]. destruct (passed c); cbn [negb andb List.length].
  - exact IH.
  - split; [lia | discriminate].
Qed.

Lemma passed_all_iff (checks : list ValidationCheck) :
  List.length (filter passed checks) = List.length checks
  <-> forallb passed checks = true.
Proof.
  induction checks as [|c checks IH]; [cbn; tauto|].
  pose proof (filter_length_le passed checks) as Hle.
  cbn [filter forallb]. destruct (passed c); cbn [andb List.length].
  - rewrite <- IH. lia.
  - split; [lia | discriminate].
Qed.

(** X21. The recommendations are at most six.  The two affirmative ones are
    issued exactly when every check passed and the applicant is eligible;
    an ineligible applicant always gets the two recommendations on
    ineligibility, so the list is not empty then. *)
Theorem recommendations_shape (checks : list ValidationCheck)
  (eligibility : EligibilityResult) :
  let recs := generateRecommendations checks eligibility in
  (List.length recs <= 6)%nat
  /\ (In "Proceed with visa application processing" recs <->
      forallb passed checks = true /\ eligible eligibility = true)
  /\ (forallb passed checks = true -> eligible eligibility = true ->
      recs = ["Document appears valid and applicant is eligible";
              "Proceed with visa application processing"])
  /\ (eligible eligibility = false ->
      In "Applicant not eligible for requested visa type" recs
      /\ In "Contact applicant for additional documentation or alternate visa type"
            recs).
Proof.
  cbv zeta. unfold generateRecommendations. cbv zeta.
  assert (Hcond : (List.length (filter (fun c => negb (passed c)) checks) =? 0)%nat
                  && eligible eligibility = true
                  <-> forallb passed checks = true /\ eligible eligibility = true).
  { now rewrite andb_true_iff, Nat.eqb_eq, all_passed_iff. }
  destruct ((List.length (filter (fun c => negb (passed c)) checks) =? 0)%nat
            && eligible eligibility) eqn:E.
  - destruct (proj1 Hcond eq_refl) as [Hall Helig]. split; [cbn; lia|].
    split; [split; [auto | intros _; cbn; auto]|].
    split; [reflexivity|]. congruence.
  - assert (Hnot : ~ (forallb passed checks = true /\ eligible eligibility = true)).
    { intros H. apply Hcond in H. discriminate. }
    split; [|split; [split|split]].
    + repeat match goal with
             | |- context [if ?b then _ else _] => destruct b
             end; cbn; lia.
    + rewrite !in_app_iff. intros H. exfalso.
      repeat match type of H with
             | _ \/ _ => destruct H as [H|H]
             | In _ (if ?b then _ else _) => destruct b
             | In _ _ => cbn [In] in H
             end; try contradiction; discriminate H.
    + intros H. contradiction.
    + intros Hall Helig. exfalso. auto.
    + intros ->. cbn [negb]. rewrite !in_app_iff.
      split; do 3 right; left; cbn; auto.
Qed.

Lemma vocabulary_has_no_mrz_needle (c : ValidationCheck) :
  In (field c)
     ["expiryDate"; "issueDate"; "name"; "dateOfBirth"; "age"; "documentNumber";
      "nationality"; "mrzChecksum"; "documentType"; "confidence"] ->
  field_has ["MRZ"; "checksum"] c = false.
Proof.
  unfold field_has. cbn [In]. intros H.
  repeat destruct H as [H|H]; try contradiction; rewrite <- H; reflexivity.
Qed.

(** X22. On the checks that [validateDocument] returns, the recommendation
    "MRZ validation failed - verify document authenticity" is never issued,
    not even when the MRZ check failed: the field name [mrzChecksum] contains
    neither ["MRZ"] nor ["checksum"]. *)
Theorem mrz_recommendation_is_never_issued (fields : ExtractedFields)
  (app : ApplicantData) (eligibility : EligibilityResult) :
  includes "mrzChecksum" "MRZ" = false
  /\ includes "mrzChecksum" "checksum" = false
  /\ ~ In "MRZ validation failed - verify document authenticity"
         (generateRecommendations (Validator.validateDocument L now fields app)
            eligibility).
Proof.
  split; [reflexivity|]. split; [reflexivity|].
  unfold generateRecommendations. cbv zeta.
  set (failed := filter (fun c => negb (passed c))
                   (Validator.validateDocument L now fields app)).
  assert (Hmrz : existsb (field_has ["MRZ"; "checksum"]) failed = false).
  { apply not_true_is_false. intros Hex.
    apply existsb_exists in Hex as (c & Hc & Hhas).
    apply filter_In in Hc as [Hc _].
    apply emitted_field, vocabulary_has_no_mrz_needle in Hc.
    congruence. }
  rewrite Hmrz.
  destruct ((List.length failed =? 0)%nat && eligible eligibility).
  - cbn [In]. intros H. repeat destruct H as [H|H]; try discriminate H; exact H.
  - rewrite !in_app_iff. intros H.
    repeat match type of H with
           | _ \/ _ => destruct H as [H|H]
           | In _ (if ?b then _ else _) => destruct b
           | In _ _ => cbn [In] in H
           end; try contradiction; discriminate H.
Qed.

End ReportFacts.

Section SummaryFacts.

Import JsString Policy Eligibility Aggregator Verifier Shape.
Open Scope string_scope.

Variable L : DateLib.
Variable now : Z.

Lemma seven_tenths (total passedCount : nat) :
  Qle_bool (inject_Z (Z.of_nat total) * (7 # 10)) (inject_Z (Z.of_nat passedCount))
  = true
  <-> (7 * total <= 10 * passedCount)%nat.
Proof.
  rewrite Qle_bool_iff. unfold Qle. cbn [Qmult Qnum Qden inject_Z Pos.mul]. lia.
Qed.

Lemma summary_prefixes (fields : ExtractedFields) (checks : list ValidationCheck)
  (eligibility : EligibilityResult) :
  let s := generateSummary fields checks eligibility in
  let passedCount := List.length (filter passed checks) in
  (prefix "Document verification successful. " s = true <->
   forallb passed checks = true /\ eligible eligibility = true)
  /\ (prefix "Document validation concerns. " s = true <->
      (10 * passedCount < 7 * List.length checks)%nat)
  /\ (prefix "Document partially validated. " s = true <->
      ~ (forallb passed checks = true /\ eligible eligibility = true)
      /\ (7 * List.length checks <= 10 * passedCount)%nat).
Proof.
  cbv zeta. unfold generateSummary. cbv zeta.
  assert (Hcond : (List.length (filter passed checks) =? List.length checks)%nat
                  && eligible eligibility = true
                  <-> forallb passed checks = true /\ eligible eligibility = true).
  { now rewrite andb_true_iff, Nat.eqb_eq, passed_all_iff. }
  pose proof (seven_tenths (List.length checks) (List.length (filter passed checks)))
    as Hseven.
  destruct ((List.length (filter passed checks) =? List.length checks)%nat
            && eligible eligibility) eqn:E.
  - destruct (proj1 Hcond eq_refl) as [Hall Helig].
    apply passed_all_iff in Hall.
    split; [split; [intros _; apply Hcond; reflexivity | intros _; apply prefix_append]|].
    split; (split; [intros H; cbn in H; discriminate H|]).
    + lia.
    + intros [Hnot _]. exfalso. apply Hnot. now apply Hcond.
  - assert (Hnot : ~ (forallb passed checks = true /\ eligible eligibility = true)).
    { intros H. apply Hcond in H. discriminate. }
    destruct (Qle_bool _ _) eqn:Q.
    + pose proof (proj1 Hseven eq_refl) as Hge.
      split; [split; [intros H; cbn in H; discriminate H | tauto]|].
      split; [split; [intros H; cbn in H; discriminate H | lia]|].
      split; [auto | intros _; apply prefix_append].
    + assert (Hlt : (10 * List.length (filter passed checks)
                     < 7 * List.length checks)%nat).
      { apply Nat.nle_gt. intros Hge. apply Hseven in Hge. discriminate. }
      split; [split; [intros H; cbn in H; discriminate H | tauto]|].
      split; [split; [auto | intros _; apply prefix_append]|].
      split; [intros H; cbn in H; discriminate H | lia].
Qed.

(** X23. The summary starts "Document verification successful. " exactly when
    every check passed and the applicant is eligible; it starts "Document
    validation concerns. " exactly when fewer than seven tenths of the checks
    passed; in the remaining cases it starts "Document partially
    validated. ". *)
Theorem summary_cases (fields : ExtractedFields) (checks : list ValidationCheck)
  (eligibility : EligibilityResult) :
  let s := generateSummary fields checks eligibility in
  let passedCount := List.length (filter passed checks) in
  (prefix "Document verification successful. " s = true <->
   forallb passed checks = true /\ eligible eligibility = true)
  /\ (prefix "Document validation concerns. " s = true <->
      (10 * passedCount < 7 * List.length checks)%nat)
  /\ (prefix "Document partially validated. " s = true <->
      ~ (forallb passed checks = true /\ eligible eligibility = true)
      /\ (7 * List.length checks <= 10 * passedCount)%nat).
Proof. apply summary_prefixes. Qed.

(** X24. When [assessEligibility] accepts on a list of checks, the summary
    built from that list and that verdict never is the "Document validation
    concerns" one. *)
Theorem accepted_summary_raises_no_concern (fields : ExtractedFields)
  (app : ApplicantData) (checks : list ValidationCheck) :
  let verdict := assessEligibility L now fields app checks in
  eligible verdict = true ->
  prefix "Document validation concerns. " (generateSummary fields checks verdict)
  = false.
Proof.
  cbv zeta. intros Helig. apply not_true_is_false. intros Hp.
  apply summary_prefixes in Hp.
  unfold assessEligibility in Helig. cbv zeta in Helig.
  destruct (assess_cases L now fields (or_else (intendedVisaType app) "tourist")
              (select (or_else (intendedVisaType app) "tourist")) checks)
    as [(_ & _ & _ & _ & _ & _ & H7 & _) | (Hno & _)];
    [|rewrite Hno in Helig; discriminate].
  unfold pass_rate_rule in H7. cbv zeta in H7.
  destruct (q_lt (passRate checks) (7 # 10)) eqn:E; [discriminate|].
  apply ratio_not_below in E. lia.
Qed.

End SummaryFacts.

(** ** Estimated confidence and the empty extraction *)

Section VerifierFacts.

Import JsString Policy Eligibility Aggregator Verifier.
Open Scope string_scope.

Variable L : DateLib.
Variable now : Z.

Lemma blank_iff (v : string) :
  (v =? "") || (trim v =? "") = true <-> trim v = "".
Proof.
  rewrite orb_true_iff, !String.eqb_eq. split; [|auto].
  intros [->|H]; [reflexivity | exact H].
Qed.

(** X25. The confidence estimated for a bare value lies between 0 and 85; it
    is 0 exactly for a blank value; and it falls below 60, the threshold of
    the confidence gate, only for a blank value or for a field named after
    the MRZ (and not after a date) whose value has at most 20 characters. *)
Theorem estimateConfidence_range (fieldName v : string) :
  (0 <= estimateConfidence fieldName v <= 85)%Z
  /\ (estimateConfidence fieldName v = 0%Z <-> trim v = "")
  /\ ((estimateConfidence fieldName v < 60)%Z ->
      trim v = ""
      \/ (includes fieldName "mrz" = true
          /\ includes fieldName "Date" = false /\ includes fieldName "date" = false
          /\ (String.length v <= 20)%nat)).
Proof.
  unfold estimateConfidence. cbv zeta. pose proof (blank_iff v) as Hb.
  destruct ((v =? "") || (trim v =? "")).
  - pose proof (proj1 Hb eq_refl). repeat split; auto; lia.
  - assert (Hnb : trim v <> "") by (intros H; apply Hb in H; discriminate).
    destruct (mem fieldName estimateCriticalFields);
      destruct (includes fieldName "Date") eqn:ED;
      destruct (includes fieldName "date") eqn:Ed;
      cbn [orb];
      try destruct (dateRegex v);
      try (destruct (includes fieldName "mrz") eqn:Em;
           [destruct (20 <? String.length v)%nat eqn:E20|]);
      (split; [lia|]);
      (split; [split; [intros H; exfalso; lia | intros H; contradiction]|]);
      intros Hlt; try (exfalso; lia);
      right; apply Nat.ltb_ge in E20; auto.
Qed.

Lemma estimateConfidence_range_witness :
  trim "P<UTO" = ""
  \/ (includes "mrzLine1" "mrz" = true
      /\ includes "mrzLine1" "Date" = false /\ includes "mrzLine1" "date" = false
      /\ (String.length "P<UTO" <= 20)%nat).
Proof.
  apply (proj2 (proj2 (estimateConfidence_range "mrzLine1" "P<UTO"))).
  vm_compute. reflexivity.
Defined.

Lemma or_else_not_empty (o : option string) (d : string) :
  d <> "" -> (or_else o d =? "") = false.
Proof.
  intros Hd. apply String.eqb_neq. unfold or_else.
  destruct o as [s|]; [|exact Hd].
  destruct (s =? "") eqn:E; [exact Hd | now apply String.eqb_neq].
Qed.

(** X26. With nothing extracted, whatever the applicant claims, the five
    steps after the extraction return confidence 70, the single [confidence]
    check, the acceptance for the requested visa type, the two affirmative
    recommendations and the success summary for "document #unknown for
    unknown". *)
Theorem empty_extraction_report (app : ApplicantData) :
  let requested := or_else (intendedVisaType app) "tourist" in
  verifyExtracted L now [] app =
  mkVerification 70 []
    [mkCheck "confidence" true
       "All extracted fields have acceptable confidence scores"]
    (accept requested)
    ["Document appears valid and applicant is eligible";
     "Proceed with visa application processing"]
    ("Document verification successful. document #unknown for unknown is valid "
     ++ "and applicant is eligible for " ++ requested
     ++ " visa. All validation checks passed (1/1).").
Proof.
  cbv zeta. unfold verifyExtracted. cbv zeta.
  rewrite validateDocument_empty. unfold assessEligibility. cbv zeta.
  rewrite assess_empty. f_equal.
  unfold generateSummary, accept. cbv zeta.
  cbn [filter passed List.length Nat.eqb eligible andb Eligibility.visaType].
  replace (or_else (Some (or_else (intendedVisaType app) "tourist")) "requested")
    with (or_else (intendedVisaType app) "tourist");
    [reflexivity|].
  unfold or_else at 2.
  now rewrite (or_else_not_empty (intendedVisaType app) "tourist") by discriminate.
Qed.

End VerifierFacts.

Section ReportRuns.

Import JsString Policy Eligibility Aggregator Verifier Validator.
Open Scope string_scope.

Lemma recommendations_shape_witness :
  let verdict := assessEligibility UtcCalendar.lib UtcCalendar.sample_now
                   Sample.passport Sample.traveller Sample.two_failures in
  eligible verdict = false
  /\ In "Applicant not eligible for requested visa type"
        (generateRecommendations Sample.two_failures verdict)
  /\ In "Contact applicant for additional documentation or alternate visa type"
        (generateRecommendations Sample.two_failures verdict).
Proof.
  cbv zeta. split; [vm_compute; reflexivity|].
  apply (proj2 (proj2 (proj2 (recommendations_shape Sample.two_failures _)))).
  vm_compute; reflexivity.
Defined.

Lemma accepted_summary_raises_no_concern_witness :
  let checks := validateDocument UtcCalendar.lib UtcCalendar.sample_now
                  Sample.residence_permit Sample.traveller in
  let verdict := assessEligibility UtcCalendar.lib UtcCalendar.sample_now
                   Sample.residence_permit Sample.traveller checks in
  forallb passed checks = false
  /\ eligible verdict = true
  /\ prefix "Document validation concerns. "
       (generateSummary Sample.residence_permit checks verdict) = false.
Proof.
  cbv zeta. split; [vm_compute; reflexivity|]. split; [vm_compute; reflexivity|].
  apply (accepted_summary_raises_no_concern UtcCalendar.lib UtcCalendar.sample_now
           Sample.residence_permit Sample.traveller).
  vm_compute; reflexivity.
Defined.

End ReportRuns.

(** ** Dates that parse *)

Section ParsedDates.

Import JsString JsDateOps Policy Eligibility Validator.
Open Scope string_scope.

Variable L : DateLib.
Variable now : Z.

(** X27. For an expiry date that parses: an expired document gets exactly one
    check, failed; a document that expires before now plus six months gets
    two passed checks, the second being the warning; any later expiry gets
    exactly one passed check.  The warning never accompanies a failed
    check. *)
Theorem expiry_rule_outcomes (fields : ExtractedFields) (v : string) (t : Z) :
  Fields.present fields "expiryDate" = Some v ->
  parseISO L v = Some t ->
  ((t < now)%Z ->
   expiry_checks L now fields
   = [mkCheck "expiryDate" false ("Document expired on " ++ v)])
  /\ ((now <= t < setMonthPlus L now 6)%Z ->
      expiry_checks L now fields
      = [mkCheck "expiryDate" true ("Document valid until " ++ v);
         mkCheck "expiryDate" true "Warning: Document expires within 6 months"])
  /\ ((now <= t)%Z -> (setMonthPlus L now 6 <= t)%Z ->
      expiry_checks L now fields
      = [mkCheck "expiryDate" true ("Document valid until " ++ v)]).
Proof.
  intros Hv Ht. rewrite (expiry_checks_parseable L now fields v t Hv Ht).
  repeat split.
  - intros H. assert (E : (now <=? t)%Z = false) by (apply Z.leb_gt; lia).
    apply Z.ltb_lt in H. now rewrite E, H.
  - intros [H1 H2]. assert (E : (t <? now)%Z = false) by (apply Z.ltb_ge; lia).
    apply Z.leb_le in H1. apply Z.ltb_lt in H2. now rewrite E, H1, H2.
  - intros H1 H2. assert (E : (t <? now)%Z = false) by (apply Z.ltb_ge; lia).
    apply Z.leb_le in H1. apply Z.ltb_ge in H2. now rewrite E, H1, H2.
Qed.

(** X28. For a date of birth that parses, the rule emits the equality check
    and then one [age] check: passed with the age in its message when the
    age is in [[18, 120)]; failed as "under 18" for any smaller age, a
    negative one included; failed as "Invalid age calculated" from 120
    on. *)
Theorem age_check_outcomes (fields : ExtractedFields) (app : ApplicantData)
  (claimed v : string) (t : Z) :
  dateOfBirth app = Some claimed -> claimed <> "" ->
  Fields.present fields "dateOfBirth" = Some v ->
  parseISO L v = Some t ->
  let age := yearsBetween L now t in
  exists equality,
    field equality = "dateOfBirth" /\ passed equality = (claimed =? v)
    /\ ((18 <= age < 120)%Z ->
        dob_checks L now fields app
        = [equality; mkCheck "age" true ("Applicant age: " ++ of_Z age ++ " years")])
    /\ ((age < 18)%Z ->
        dob_checks L now fields app
        = [equality; mkCheck "age" false "Applicant is under 18 - may require guardian"])
    /\ ((120 <= age)%Z ->
        dob_checks L now fields app
        = [equality; mkCheck "age" false "Invalid age calculated"]).
Proof.
  intros Hc Hne Hv Ht. cbv zeta. unfold dob_checks. rewrite Hc, Hv.
  apply String.eqb_neq in Hne. rewrite Hne. cbv zeta. rewrite Ht.
  cbn [try_catch differenceInYears num_ge num_lt].
  exists (mkCheck "dateOfBirth" (claimed =? v)
            (if claimed =? v then "Date of birth matches application"
             else "DOB mismatch: Document shows " ++ dq ++ v ++ dq
                  ++ ", application shows " ++ dq ++ claimed ++ dq)).
  split; [reflexivity|]. split; [reflexivity|].
  repeat split.
  - intros [H1 H2]. apply Z.leb_le in H1. apply Z.ltb_lt in H2.
    now rewrite H1, H2.
  - intros H. assert (E : (18 <=? yearsBetween L now t)%Z = false)
      by (apply Z.leb_gt; lia).
    apply Z.ltb_lt in H. now rewrite E, H.
  - intros H. assert (E : (yearsBetween L now t <? 120)%Z = false)
      by (apply Z.ltb_ge; lia).
    assert (E' : (yearsBetween L now t <? 18)%Z = false) by (apply Z.ltb_ge; lia).
    now rewrite E, E', andb_false_r.
Qed.

(** X29. Under a policy of the table, when no critical check failed and the
    age rule does not reject, an expiry date that parses to an instant
    before now plus the validity window of the policy is rejected with the
    message that names the window and the expiry date as read. *)
Theorem short_validity_is_rejected (fields : ExtractedFields) (app : ApplicantData)
  (checks : list ValidationCheck) (p : EligibilityPolicy) (v : string) (t : Z) :
  let requested := or_else (intendedVisaType app) "tourist" in
  select requested = Own p ->
  criticalFailures checks = [] ->
  age_rule L now fields requested (Own p) = None ->
  Fields.present fields "expiryDate" = Some v ->
  parseISO L v = Some t ->
  (t < plusMonths L now (minPassportValidity p))%Z ->
  assessEligibility L now fields app checks =
  mkResult false
    ("Passport must be valid for at least " ++ of_Z (minPassportValidity p)
     ++ " months from today. Current expiry: " ++ v)
    (Some requested).
Proof.
  cbv zeta. intros Hsel Hcrit Hage Hv Ht Hlt.
  unfold assessEligibility, assess. cbv zeta. rewrite Hsel.
  unfold critical_rule. rewrite Hcrit. cbn [List.length Nat.ltb Nat.leb].
  rewrite andb_false_r, Hage. cbn [first_rejection].
  unfold validity_rule. rewrite Hv. cbv zeta. rewrite Ht.
  cbn [try_catch addMonths slot_minPassportValidity isBefore].
  apply Z.ltb_lt in Hlt. rewrite Hlt. reflexivity.
Qed.

End ParsedDates.

Section ParsedDateRuns.

Import JsString JsDateOps Policy Eligibility Validator.
Open Scope string_scope.

Lemma expiry_rule_outcomes_witness :
  expiry_checks UtcCalendar.lib UtcCalendar.sample_now Cases.expiring_passport
  = [mkCheck "expiryDate" true "Document valid until 2027-01-15";
     mkCheck "expiryDate" true "Warning: Document expires within 6 months"].
Proof.
  apply (proj1 (proj2 (expiry_rule_outcomes UtcCalendar.lib UtcCalendar.sample_now
                         Cases.expiring_passport "2027-01-15"
                         (UtcCalendar.days_from_civil 2027 1 15 * UtcCalendar.msPerDay)
                         eq_refl eq_refl))).
  vm_compute. split; [discriminate | reflexivity].
Defined.

Lemma age_check_outcomes_witness :
  exists equality,
    dob_checks UtcCalendar.lib UtcCalendar.sample_now Cases.minor_passport Cases.minor
    = [equality; mkCheck "age" false "Applicant is under 18 - may require guardian"].
Proof.
  destruct (age_check_outcomes UtcCalendar.lib UtcCalendar.sample_now
              Cases.minor_passport Cases.minor "2009-06-01" "2009-06-01"
              (UtcCalendar.days_from_civil 2009 6 1 * UtcCalendar.msPerDay)
              eq_refl ltac:(discriminate) eq_refl eq_refl)
    as (equality & _ & _ & _ & Hunder & _).
  exists equality. apply Hunder. vm_compute. reflexivity.
Defined.

Lemma short_validity_is_rejected_witness :
  assessEligibility UtcCalendar.lib UtcCalendar.sample_now Cases.expiring_passport
    Sample.traveller
    (validateDocument UtcCalendar.lib UtcCalendar.sample_now Cases.expiring_passport
       Sample.traveller)
  = mkResult false
      "Passport must be valid for at least 6 months from today. Current expiry: 2027-01-15"
      (Some "tourist").
Proof.
  apply (short_validity_is_rejected UtcCalendar.lib UtcCalendar.sample_now
           Cases.expiring_passport Sample.traveller _ tourist "2027-01-15"
           (UtcCalendar.days_from_civil 2027 1 15 * UtcCalendar.msPerDay));
    vm_compute; reflexivity.
Defined.

End ParsedDateRuns.

Section VocabularyRun.

Import Validator.
Open Scope string_scope.

Lemma validateDocument_vocabulary_witness :
  In (mkCheck "age" true "Applicant age: 36 years")
     (validateDocument UtcCalendar.lib UtcCalendar.sample_now Sample.passport
        Sample.traveller)
  /\ In "age"
        ["expiryDate"; "issueDate"; "name"; "dateOfBirth"; "age"; "documentNumber";
         "nationality"; "mrzChecksum"; "documentType"; "confidence"].
Proof.
  assert (H : In (mkCheck "age" true "Applicant age: 36 years")
                 (validateDocument UtcCalendar.lib UtcCalendar.sample_now
                    Sample.passport Sample.traveller))
    by (vm_compute; tauto).
  split; [exact H|].
  apply (validateDocument_vocabulary UtcCalendar.lib UtcCalendar.sample_now
           Sample.passport Sample.traveller _ H).
Defined.

End VocabularyRun.

(** ** Runs at the edges of the arithmetic and of the case mapping *)

Section EdgeRuns.

Import JsString Policy Eligibility Aggregator Validator.
Open Scope string_scope.

(** Six confidences summing to 545 with one check of five passed: the
    weighted sum is just below 62.5 in binary64 and rounds to 62. *)
Example overall_confidence_just_below_a_half :
  calculateOverallConfidence
    [("documentType", Some (mkField "passport" 95));
     ("documentNumber", Some (mkField "A12345678" 90));
     ("fullName", Some (mkField "John Doe" 90));
     ("dateOfBirth", Some (mkField "1990-01-15" 90));
     ("nationality", Some (mkField "USA" 90));
     ("expiryDate", Some (mkField "2030-12-31" 90))]
    (mkCheck "confidence" true "" :: repeat (mkCheck "name" false "") 4)
  = 62%Z.
Proof. vm_compute. reflexivity. Qed.

(** Six confidences summing to 35 on a document of unknown type: both
    checks fail, the weighted sum is just below 3.5 and rounds to 3. *)
Example overall_confidence_of_a_blurred_document :
  let fields :=
    [("documentType", Some (mkField "other" 5));
     ("documentNumber", Some (mkField "A12345678" 6));
     ("fullName", Some (mkField "John Doe" 6));
     ("dateOfBirth", Some (mkField "1990-01-15" 6));
     ("nationality", Some (mkField "USA" 6));
     ("sex", Some (mkField "M" 6))] in
  let checks := validateDocument UtcCalendar.lib UtcCalendar.sample_now fields
                  (mkApplicant None None None None None) in
  map passed checks = [false; false]
  /\ calculateOverallConfidence fields checks = 3%Z.
Proof. cbv zeta. split; vm_compute; reflexivity. Qed.

(** 23 checks of 40 passed: the rate times 100 is just below 57.5 in
    binary64 and the message says 57. *)
Example pass_rate_message_at_23_of_40 :
  pass_rate_rule "tourist"
    (repeat (mkCheck "nationality" true "") 23
     ++ repeat (mkCheck "nationality" false "") 17)
  = Some (reject "tourist"
            "Insufficient validation pass rate (57%). Multiple checks failed.").
Proof. vm_compute. reflexivity. Qed.

(** U+00C9 on the document against U+00E9 in the claim: the names match;
    so do the numbers and the nationalities that differ in the case of
    such a letter. *)
Example latin_letters_match :
  let E := String "201"%char "" in
  let e := String "233"%char "" in
  let O := String "212"%char "" in
  let o := String "244"%char "" in
  name_checks [("fullName", Some (mkField E 95))]
    (mkApplicant (Some e) None None None None)
  = [mkCheck "name" true "Name matches application"]
  /\ number_checks [("documentNumber", Some (mkField (E ++ "1") 95))]
       (mkApplicant None None (Some (e ++ "1")) None None)
     = [mkCheck "documentNumber" true "Document number matches application"]
  /\ nationality_checks [("nationality", Some (mkField ("C" ++ O ++ "TE") 95))]
       (mkApplicant None None None (Some ("c" ++ o ++ "te")) None)
     = [mkCheck "nationality" true "Nationality matches application"].
Proof. cbv zeta. repeat split. Qed.

(** U+00DF upper-cases to ["SS"]: a number written with it matches the
    number written with two letters. *)
Example sharp_s_matches_double_s :
  number_checks [("documentNumber", Some (mkField "STRASSE1" 95))]
    (mkApplicant None None (Some ("stra" ++ String "223"%char "" ++ "e1")) None None)
  = [mkCheck "documentNumber" true "Document number matches application"].
Proof. reflexivity. Qed.

End EdgeRuns.
